(** * Copy-on-write clone addon (clone.c): model and verification

    The development follows [packages/@kexi/vibe-native/src/clone.c]:
    - byte strings, [snprintf] truncation and the UTF-8 copy made by Node-API;
    - the JavaScript values and errors the addon exchanges with its host;
    - the kernel interface the addon calls ([open], [close], [ioctl],
      [unlink], [clonefile]) as a state monad over a small file-system
      world that records every system call;
    - the addon functions themselves, one definition per C function;
    - the properties of the addon. *)

From stdpp Require Import base option strings list gmap pretty.
From Stdlib Require Import ZArith NArith Ascii String Lia.

Local Open Scope Z_scope.

(** ** Byte strings *)

Module Bytes.

(** The first [n] bytes of [s]. *)
Fixpoint take (n : nat) (s : string) : string :=
  match n, s with
  | S n', String c r => String c (take n' r)
  | _, _ => EmptyString
  end.

(** [snprintf(buf, size, ...)] keeps at most [size - 1] bytes of the
    formatted text [s] (the last byte of the buffer holds the terminator). *)
Definition snprintf (size : nat) (s : string) : string :=
  take (size - 1) s.

(** The C string held by a buffer: the bytes before the first NUL. *)
Fixpoint c_str (buf : string) : string :=
  match buf with
  | EmptyString => EmptyString
  | String c r => if Ascii.eqb c Ascii.zero then EmptyString else String c (c_str r)
  end.

(** [needle] occurs in [s]. *)
Definition contains (s needle : string) : Prop :=
  ∃ pre post, s = pre +:+ needle +:+ post.

(** [p] is a prefix of [s]. *)
Definition starts_with (s p : string) : Prop :=
  ∃ post, s = p +:+ post.

End Bytes.

(** ** UTF-8 encoding of JavaScript strings *)

Module Utf8.

Definition byte (n : N) : ascii := ascii_of_N (N.land n 255).

(** Encoding of one code point.  An unpaired surrogate is written as
    U+FFFD, as V8 does when it fills a UTF-8 buffer. *)
Definition encode (c : N) : string :=
  if (c <? 128)%N then
    String (byte c) EmptyString
  else if (c <? 2048)%N then
    String (byte (N.lor 192 (N.shiftr c 6)))
   (String (byte (N.lor 128 (N.land c 63))) EmptyString)
  else if ((55296 <=? c) && (c <=? 57343))%N then
    String (byte 239) (String (byte 191) (String (byte 189) EmptyString))
  else if (c <? 65536)%N then
    String (byte (N.lor 224 (N.shiftr c 12)))
   (String (byte (N.lor 128 (N.land (N.shiftr c 6) 63)))
   (String (byte (N.lor 128 (N.land c 63))) EmptyString))
  else
    String (byte (N.lor 240 (N.land (N.shiftr c 18) 7)))
   (String (byte (N.lor 128 (N.land (N.shiftr c 12) 63)))
   (String (byte (N.lor 128 (N.land (N.shiftr c 6) 63)))
   (String (byte (N.lor 128 (N.land c 63))) EmptyString))).

(** The whole string, encoded. *)
Fixpoint encode_all (cps : list N) : string :=
  match cps with
  | [] => EmptyString
  | c :: rest => encode c +:+ encode_all rest
  end.

(** Copy into a buffer with room for [cap] bytes: whole characters are
    written while they fit, and the copy stops at the first one that
    does not. *)
Fixpoint write (cps : list N) (cap : nat) : string :=
  match cps with
  | [] => EmptyString
  | c :: rest =>
      let e := encode c in
      if (String.length e <=? cap)%nat
      then e +:+ write rest (cap - String.length e)
      else EmptyString
  end.

(** The JavaScript string whose characters are the bytes of an ASCII text. *)
Fixpoint of_ascii (s : string) : list N :=
  match s with
  | EmptyString => []
  | String c r => N_of_ascii c :: of_ascii r
  end.

End Utf8.

(** ** JavaScript values, as Node-API shows them to the addon *)

(** The C functions the module registers as JavaScript functions. *)
Inductive callback :=
  | cb_get_platform
  | cb_darwin_clonefile
  | cb_darwin_is_available
  | cb_darwin_supports_directory
  | cb_linux_ficlone
  | cb_linux_is_available
  | cb_linux_supports_directory.

Inductive napi_valuetype :=
  | napi_undefined | napi_null | napi_boolean | napi_number | napi_string
  | napi_symbol | napi_object | napi_function | napi_external | napi_bigint.

(** A string is the list of its code points; an object, a symbol and an
    external are opaque to the addon, which only asks for their type. *)
Inductive napi_value :=
  | js_undefined
  | js_null
  | js_boolean (b : bool)
  | js_number (n : Z)
  | js_string (cps : list N)
  | js_symbol (id : N)
  | js_object (id : N)
  | js_function (cb : callback)
  | js_external (id : N)
  | js_bigint (n : Z).

Inductive napi_status :=
  | napi_ok | napi_invalid_arg | napi_string_expected | napi_generic_failure.

Inductive error_class := Error | TypeError.

(** A thrown error: its class, its [message] and, when the addon set it,
    its [errno] property. *)
Record js_error := mk_error {
  err_class : error_class;
  err_message : string;
  err_errno : option Z
}.

(** How a call of a native function ends: it returns a value, or it
    returns NULL with an exception pending. *)
Inductive completion :=
  | Returned (v : napi_value)
  | Thrown (e : js_error).

#[global] Instance callback_eq_dec : EqDecision callback.
Proof. solve_decision. Defined.
#[global] Instance napi_valuetype_eq_dec : EqDecision napi_valuetype.
Proof. solve_decision. Defined.
#[global] Instance napi_status_eq_dec : EqDecision napi_status.
Proof. solve_decision. Defined.

Definition napi_typeof (v : napi_value) : napi_status * napi_valuetype :=
  (napi_ok,
   match v with
   | js_undefined => napi_undefined
   | js_null => napi_null
   | js_boolean _ => napi_boolean
   | js_number _ => napi_number
   | js_string _ => napi_string
   | js_symbol _ => napi_symbol
   | js_object _ => napi_object
   | js_function _ => napi_function
   | js_external _ => napi_external
   | js_bigint _ => napi_bigint
   end).

(** [napi_get_value_string_utf8(env, value, buf, bufsize, result)]: for a
    string it copies at most [bufsize - 1] bytes of the UTF-8 encoding,
    terminates them, stores the number of bytes copied and answers
    [napi_ok], also when the string did not fit. *)
Definition napi_get_value_string_utf8 (v : napi_value) (bufsize : nat)
  : napi_status * string * nat :=
  match v with
  | js_string cps =>
      let buf := Utf8.write cps (bufsize - 1) in
      (napi_ok, buf, String.length buf)
  | _ => (napi_string_expected, EmptyString, 0%nat)
  end.

(** ** The kernel interface *)

(** *** Constants of the headers *)

Definition O_RDONLY : Z := 0.
Definition O_WRONLY : Z := 1.
Definition O_RDWR : Z := 2.
Definition O_ACCMODE : Z := 3.
Definition O_CREAT : Z := 64.     (* 0100 *)
Definition O_TRUNC : Z := 512.    (* 01000 *)

Definition S_IRUSR : Z := 256.    (* 0400 *)
Definition S_IWUSR : Z := 128.    (* 0200 *)
Definition S_IRGRP : Z := 32.     (* 0040 *)
Definition S_IROTH : Z := 4.      (* 0004 *)

(** [_IOW(type, nr, int)]: direction write (1) in bits 30-31, the size of
    an [int] (4) in bits 16-29, the type in bits 8-15, the number in
    bits 0-7. *)
Definition _IOW (type nr size : Z) : Z :=
  Z.lor (Z.lor (Z.lor (Z.shiftl 1 30) (Z.shiftl size 16)) (Z.shiftl type 8)) nr.

Definition FICLONE : Z := _IOW 148 9 4.   (* _IOW(0x94, 9, int) *)

Definition ENOENT : Z := 2.
Definition EIO : Z := 5.
Definition EBADF : Z := 9.
Definition EACCES : Z := 13.
Definition EEXIST : Z := 17.
Definition EISDIR : Z := 21.
Definition EMFILE : Z := 24.
Definition ENOTTY : Z := 25.
Definition ENOTSUP_darwin : Z := 45.
Definition EOPNOTSUPP : Z := 95.

(** *** The world *)

Inductive ftype := Regular | Directory.

(** A file: its type, its permission bits, its bytes, and the error (if
    any) that the file system reports when a descriptor of the file is
    closed. *)
Record inode := mk_inode {
  i_type : ftype;
  i_mode : Z;
  i_data : string;
  i_close_error : option Z
}.

(** An open descriptor: the file it names and the flags it was opened with. *)
Record fd_entry := mk_fd {
  fd_path : string;
  fd_flags : Z
}.

Inductive syscall :=
  | SysOpen (path : string) (flags mode : Z)
  | SysClose (fd : Z)
  | SysIoctl (fd request arg : Z)
  | SysUnlink (path : string)
  | SysClonefile (src dst : string) (flags : Z).

(** The state the addon runs against.  Paths name files directly (a flat
    name space: "." and ".." are not resolved and there are no links, so
    two different strings are two different files, and the properties
    below say nothing about a file reached under another name);
    [frozen] holds the names whose directory does not let the process add
    or remove the entry; [reflink] tells whether the file system clones
    extents; [trace] lists the system calls made so far, oldest first. *)
Record World := mk_world {
  files : gmap string inode;
  frozen : gset string;
  reflink : bool;
  umask : Z;
  fds : gmap Z fd_entry;
  fd_limit : nat;
  errno : Z;
  strerror : Z → string;
  trace : list syscall
}.

Definition set_files (f : gmap string inode) (w : World) : World :=
  mk_world f (frozen w) (reflink w) (umask w) (fds w) (fd_limit w)
           (errno w) (strerror w) (trace w).

Definition set_fds (t : gmap Z fd_entry) (w : World) : World :=
  mk_world (files w) (frozen w) (reflink w) (umask w) t (fd_limit w)
           (errno w) (strerror w) (trace w).

Definition set_errno (e : Z) (w : World) : World :=
  mk_world (files w) (frozen w) (reflink w) (umask w) (fds w) (fd_limit w)
           e (strerror w) (trace w).

Definition log (c : syscall) (w : World) : World :=
  mk_world (files w) (frozen w) (reflink w) (umask w) (fds w) (fd_limit w)
           (errno w) (strerror w) (trace w ++ [c]).

(** *** The state monad of the addon *)

Definition M (A : Type) : Type := World → A * World.

#[global] Instance M_ret : MRet M := λ A a w, (a, w).
#[global] Instance M_bind : MBind M :=
  λ A B f m w, let '(a, w') := m w in f a w'.

Definition get_errno : M Z := λ w, (errno w, w).

(** A failing system call: [errno] is set and -1 is returned. *)
Definition sys_fail (e : Z) : M Z := λ w, (-1, set_errno e w).

(** *** System calls *)

(** The lowest descriptor below the limit that is not in use. *)
Definition free_fd (w : World) : option Z :=
  head (filter (λ fd, fds w !! fd = None) (seqZ 0 (Z.of_nat (fd_limit w)))).

Definition wants_read (flags : Z) : bool :=
  negb (Z.land flags O_ACCMODE =? O_WRONLY).
Definition wants_write (flags : Z) : bool :=
  negb (Z.land flags O_ACCMODE =? O_RDONLY).
Definition has_flag (flags bit : Z) : bool :=
  negb (Z.land flags bit =? 0).

Definition readable (i : inode) : bool := has_flag (i_mode i) S_IRUSR.
Definition writable (i : inode) : bool := has_flag (i_mode i) S_IWUSR.

(** [open(path, flags, mode)].  A descriptor is reserved first, so a call
    that fails changes no file.  [mode] is read only when the call
    creates the file. *)
Definition sys_open (path : string) (flags mode : Z) : M Z := λ w0,
  let w := log (SysOpen path flags mode) w0 in
  match free_fd w with
  | None => sys_fail EMFILE w
  | Some fd =>
      let entry := mk_fd path flags in
      match files w !! path with
      | None =>
          if negb (has_flag flags O_CREAT) || bool_decide (path = EmptyString)
          then sys_fail ENOENT w
          else if bool_decide (path ∈ frozen w) then sys_fail EACCES w
          else
            let i := mk_inode Regular (Z.ldiff mode (umask w)) EmptyString None in
            (fd, set_fds (<[fd := entry]> (fds w))
                   (set_files (<[path := i]> (files w)) w))
      | Some i =>
          match i_type i with
          | Directory =>
              if wants_write flags || has_flag flags O_CREAT
              then sys_fail EISDIR w
              else if readable i
                   then (fd, set_fds (<[fd := entry]> (fds w)) w)
                   else sys_fail EACCES w
          | Regular =>
              if wants_read flags && negb (readable i) then sys_fail EACCES w
              else if wants_write flags && negb (writable i) then sys_fail EACCES w
              else
                let w1 :=
                  if has_flag flags O_TRUNC && wants_write flags
                  then set_files
                         (<[path := mk_inode Regular (i_mode i) EmptyString
                                             (i_close_error i)]> (files w)) w
                  else w in
                (fd, set_fds (<[fd := entry]> (fds w1)) w1)
          end
      end
  end.

(** [close(fd)].  The descriptor is released even when the call reports
    an error. *)
Definition sys_close (fd : Z) : M Z := λ w0,
  let w := log (SysClose fd) w0 in
  match fds w !! fd with
  | None => sys_fail EBADF w
  | Some entry =>
      let w' := set_fds (delete fd (fds w)) w in
      match files w !! fd_path entry ≫= i_close_error with
      | Some e => sys_fail e w'
      | None => (0, w')
      end
  end.

(** [ioctl(fd, request, arg)]; for [FICLONE], [fd] is the destination and
    [arg] the descriptor of the file whose extents are shared. *)
Definition sys_ioctl (fd request arg : Z) : M Z := λ w0,
  let w := log (SysIoctl fd request arg) w0 in
  match fds w !! fd, fds w !! arg with
  | Some d, Some s =>
      if negb (request =? FICLONE) then sys_fail ENOTTY w
      else if negb (wants_write (fd_flags d)) || negb (wants_read (fd_flags s))
      then sys_fail EBADF w
      else
        match files w !! fd_path d, files w !! fd_path s with
        | Some di, Some si =>
            match i_type di, i_type si with
            | Regular, Regular =>
                if reflink w
                then (0, set_files
                           (<[fd_path d :=
                                mk_inode Regular (i_mode di) (i_data si)
                                         (i_close_error di)]> (files w)) w)
                else sys_fail EOPNOTSUPP w
            | _, _ => sys_fail EISDIR w
            end
        | _, _ => sys_fail EBADF w
        end
  | _, _ => sys_fail EBADF w
  end.

(** [unlink(path)]. *)
Definition sys_unlink (path : string) : M Z := λ w0,
  let w := log (SysUnlink path) w0 in
  match files w !! path with
  | None => sys_fail ENOENT w
  | Some i =>
      match i_type i with
      | Directory => sys_fail EISDIR w
      | Regular =>
          if bool_decide (path ∈ frozen w) then sys_fail EACCES w
          else (0, set_files (delete path (files w)) w)
      end
  end.

(** The part of [path] below the directory [dir], when there is one. *)
Fixpoint below (dir path : string) : option string :=
  match dir, path with
  | EmptyString, String "/" rest => Some rest
  | String a dir', String b path' =>
      if Ascii.eqb a b then below dir' path' else None
  | _, _ => None
  end.

(** [clonefile(src, dst, flags)]: the file, or the directory with
    everything below it, appears under the new name; nothing changes when
    the call fails. *)
Definition sys_clonefile (src dst : string) (flags : Z) : M Z := λ w0,
  let w := log (SysClonefile src dst flags) w0 in
  match files w !! src with
  | None => sys_fail ENOENT w
  | Some i =>
      if bool_decide (is_Some (files w !! dst)) then sys_fail EEXIST w
      else if bool_decide (dst = EmptyString) then sys_fail ENOENT w
      else if bool_decide (dst ∈ frozen w) || negb (readable i)
      then sys_fail EACCES w
      else if negb (reflink w) then sys_fail ENOTSUP_darwin w
      else
        let copied :=
          map_fold (λ p node acc,
                      match below src p with
                      | Some rest => <[dst +:+ "/" +:+ rest := node]> acc
                      | None => acc
                      end)
                   (<[dst := i]> (files w)) (files w) in
        (0, set_files copied w)
  end.

(** ** The addon *)

(** The build target: [__DARWIN__] defined, [__LINUX__] defined, or neither. *)
Inductive target := Darwin | Linux | Other.

(** [limits.h] defines [PATH_MAX] as 1024 on Darwin and 4096 on Linux; the
    addon supplies 4096 where the header leaves it undefined. *)
Definition PATH_MAX (t : target) : nat :=
  match t with
  | Darwin => 1024
  | Linux | Other => 4096
  end.

Definition ERROR_MSG_BUFFER_SIZE : nat := 256.
Definition ARG_ERROR_MSG_SIZE : nat := 128.
Definition DEFAULT_FILE_MODE : Z := 420.   (* 0644, rw-r--r-- *)

(** [napi_create_string_utf8] on one of the ASCII literals of the addon. *)
Definition napi_create_string_utf8 (s : string) : napi_value :=
  js_string (Utf8.of_ascii s).

(** What [napi_get_cb_info] stores for a caller that asked for [capacity]
    arguments: the number of arguments passed, and the array filled with
    the arguments and [undefined] for the missing ones. *)
Definition napi_get_cb_info (info : list napi_value) (capacity : nat)
  : nat * list napi_value :=
  (List.length info,
   take capacity info ++ replicate (capacity - List.length info) js_undefined).

(** The text [throw_errno_error] formats, before it is cut to the buffer. *)
Definition errno_text (operation description : string) (err : Z) : string :=
  operation +:+ " failed: " +:+ description +:+ " (errno " +:+ pretty err +:+ ")".

(** Helper to throw a JavaScript error with errno information. *)
Definition throw_errno_error (operation : string) (err : Z) : M completion :=
  λ w,
    let message :=
      Bytes.snprintf ERROR_MSG_BUFFER_SIZE
                     (errno_text operation (strerror w err) err) in
    (Thrown (mk_error Error message (Some err)), w).

(** Helper to validate and get a string argument: the buffer and the
    length on success, the error thrown on failure. *)
Definition get_string_arg (value : napi_value) (buffer_size : nat)
    (arg_name : string) : js_error + (string * nat) :=
  let '(status, type) := napi_typeof value in
  if bool_decide (status ≠ napi_ok) || bool_decide (type ≠ napi_string) then
    inl (mk_error TypeError
           (Bytes.snprintf ARG_ERROR_MSG_SIZE (arg_name +:+ " must be a string"))
           None)
  else
    let '(status, buffer, length) :=
      napi_get_value_string_utf8 value buffer_size in
    if bool_decide (status ≠ napi_ok) then
      inl (mk_error Error
             (Bytes.snprintf ARG_ERROR_MSG_SIZE
                ("Failed to read " +:+ arg_name +:+ " string"))
             None)
    else if (length =? 0)%nat then
      inl (mk_error Error
             (Bytes.snprintf ARG_ERROR_MSG_SIZE (arg_name +:+ " cannot be empty"))
             None)
    else inr (buffer, length).

(** macOS: clone a file or a directory with [clonefile]. *)
Definition darwin_clonefile (info : list napi_value) : M completion :=
  let '(argc, argv) := napi_get_cb_info info 2 in
  if (argc <? 2)%nat then
    mret (Thrown (mk_error Error "clonefile requires 2 arguments: src, dest" None))
  else
    match get_string_arg (nth 0 argv js_undefined) (PATH_MAX Darwin) "src" with
    | inl e => mret (Thrown e)
    | inr (src, src_len) =>
        match get_string_arg (nth 1 argv js_undefined) (PATH_MAX Darwin) "dest" with
        | inl e => mret (Thrown e)
        | inr (dest, dest_len) =>
            result ← sys_clonefile (Bytes.c_str src) (Bytes.c_str dest) 0;
            if negb (result =? 0) then
              err ← get_errno;
              throw_errno_error "clonefile" err
            else mret (Returned js_undefined)
        end
    end.

Definition darwin_is_available (info : list napi_value) : M completion :=
  mret (Returned (js_boolean true)).

Definition darwin_supports_directory (info : list napi_value) : M completion :=
  mret (Returned (js_boolean true)).

(** Linux: clone a file with the [FICLONE] ioctl. *)
Definition linux_ficlone (info : list napi_value) : M completion :=
  let '(argc, argv) := napi_get_cb_info info 2 in
  if (argc <? 2)%nat then
    mret (Thrown (mk_error Error "ficlone requires 2 arguments: src, dest" None))
  else
    match get_string_arg (nth 0 argv js_undefined) (PATH_MAX Linux) "src" with
    | inl e => mret (Thrown e)
    | inr (src, src_len) =>
        match get_string_arg (nth 1 argv js_undefined) (PATH_MAX Linux) "dest" with
        | inl e => mret (Thrown e)
        | inr (dest, dest_len) =>
            src_fd ← sys_open (Bytes.c_str src) O_RDONLY 0;
            if src_fd <? 0 then
              err ← get_errno;
              throw_errno_error "open source" err
            else
              dest_fd ← sys_open (Bytes.c_str dest)
                                 (Z.lor (Z.lor O_WRONLY O_CREAT) O_TRUNC)
                                 DEFAULT_FILE_MODE;
              if dest_fd <? 0 then
                saved_errno ← get_errno;
                _ ← sys_close src_fd;
                throw_errno_error "open dest" saved_errno
              else
                result ← sys_ioctl dest_fd FICLONE src_fd;
                saved_errno ← get_errno;
                _ ← sys_close src_fd;
                _ ← sys_close dest_fd;
                if negb (result =? 0) then
                  _ ← sys_unlink (Bytes.c_str dest);
                  throw_errno_error "ioctl FICLONE" saved_errno
                else mret (Returned js_undefined)
        end
    end.

Definition linux_is_available (info : list napi_value) : M completion :=
  mret (Returned (js_boolean true)).

Definition linux_supports_directory (info : list napi_value) : M completion :=
  mret (Returned (js_boolean false)).

(** Get platform name. *)
Definition get_platform (t : target) (info : list napi_value) : M completion :=
  mret (Returned (napi_create_string_utf8
                    match t with
                    | Darwin => "darwin"
                    | Linux => "linux"
                    | Other => "unknown"
                    end)).

(** Module initialization: the properties set on [exports]. *)
Definition Init (t : target) (exports : gmap string napi_value)
  : gmap string napi_value :=
  let platform_fn := js_function cb_get_platform in
  let exports := <["getPlatform" := platform_fn]> exports in
  match
    match t with
    | Darwin =>
        Some (js_function cb_darwin_clonefile,
              js_function cb_darwin_is_available,
              js_function cb_darwin_supports_directory)
    | Linux =>
        Some (js_function cb_linux_ficlone,
              js_function cb_linux_is_available,
              js_function cb_linux_supports_directory)
    | Other => None
    end
  with
  | None =>
      let unavailable := js_boolean false in
      <["isAvailable" := unavailable]> exports
  | Some (clone_fn, is_available_fn, supports_dir_fn) =>
      let exports := <["clone" := clone_fn]> exports in
      let exports := <["isAvailable" := is_available_fn]> exports in
      <["supportsDirectory" := supports_dir_fn]> exports
  end.

(** ** The host calling into the module *)

(** The C function behind a registered callback. *)
Definition invoke (t : target) (cb : callback) : list napi_value → M completion :=
  match cb with
  | cb_get_platform => get_platform t
  | cb_darwin_clonefile => darwin_clonefile
  | cb_darwin_is_available => darwin_is_available
  | cb_darwin_supports_directory => darwin_supports_directory
  | cb_linux_ficlone => linux_ficlone
  | cb_linux_is_available => linux_is_available
  | cb_linux_supports_directory => linux_supports_directory
  end.

Definition callable (v : napi_value) : bool :=
  match v with
  | js_function _ => true
  | _ => false
  end.

(** The JavaScript expression [exports.name(args...)]: calling a property
    that is absent or is not a function throws a [TypeError]. *)
Definition call_export (t : target) (exports : gmap string napi_value)
    (name : string) (args : list napi_value) : M completion :=
  match exports !! name with
  | Some (js_function cb) => invoke t cb args
  | _ => mret (Thrown (mk_error TypeError (name +:+ " is not a function") None))
  end.

(** The module as the host loads it: [Init] run on an empty [exports]. *)
Definition module (t : target) : gmap string napi_value := Init t ∅.

(** The results of [n] calls made one after the other. *)
Fixpoint call_repeatedly (n : nat) (f : M completion) : M (list completion) :=
  match n with
  | O => mret []
  | S n' =>
      r ← f;
      rs ← call_repeatedly n' f;
      mret (r :: rs)
  end.

(** Both arguments of a clone call pass the validator of target [t], which
    leaves the two paths in its buffers. *)
Definition accepted (t : target) (info : list napi_value) (src dest : string)
  : Prop :=
  ∃ src_len dest_len,
    get_string_arg (nth 0 info js_undefined) (PATH_MAX t) "src"
      = inr (src, src_len) ∧
    get_string_arg (nth 1 info js_undefined) (PATH_MAX t) "dest"
      = inr (dest, dest_len).

(** One of the two arguments is refused by the validator of target [t]. *)
Definition refused (t : target) (info : list napi_value) : Prop :=
  (∃ e, get_string_arg (nth 0 info js_undefined) (PATH_MAX t) "src" = inl e) ∨
  (∃ e, get_string_arg (nth 1 info js_undefined) (PATH_MAX t) "dest" = inl e).

(** The flags [linux_ficlone] opens the destination with. *)
Abbreviation dest_flags := (Z.lor (Z.lor O_WRONLY O_CREAT) O_TRUNC).

(** ** Worlds and inputs used in the examples *)

Module Samples.

(** The descriptions glibc gives for the error codes of the model. *)
Definition linux_strerror (e : Z) : string :=
  if e =? 2 then "No such file or directory"
  else if e =? 5 then "Input/output error"
  else if e =? 9 then "Bad file descriptor"
  else if e =? 13 then "Permission denied"
  else if e =? 17 then "File exists"
  else if e =? 21 then "Is a directory"
  else if e =? 24 then "Too many open files"
  else if e =? 25 then "Inappropriate ioctl for device"
  else if e =? 95 then "Operation not supported"
  else "Unknown error " +:+ pretty e.

Definition file (mode : Z) (data : string) : inode :=
  mk_inode Regular mode data None.

Definition str (s : string) : napi_value := js_string (Utf8.of_ascii s).

(** Descriptors 0, 1 and 2 are the standard streams. *)
Definition stdio : gmap Z fd_entry :=
  <[0 := mk_fd "/dev/stdin" O_RDONLY]>
  (<[1 := mk_fd "/dev/stdout" O_WRONLY]>
  (<[2 := mk_fd "/dev/stderr" O_WRONLY]> ∅)).

(** A file system without reflink support.  It holds a source file
    [a.txt], a file [out], a file [secret] without any permission, a
    directory [dir] and a writable file [ro/out] in a directory that the
    process may not modify; the umask is 022 and at most 16 descriptors
    may be open. *)
Definition w_plain : World :=
  mk_world (<["a.txt" := file 420 "hello"]>
            (<["ro/out" := file 420 "precious"]>
            (<["out" := file 420 "old"]>
            (<["secret" := file 0 "x"]>
            (<["dir" := mk_inode Directory 493 "" None]> ∅)))))
           {["ro/out"; "ro/new"]} false 18 stdio 16 0 linux_strerror [].

(** The same files on a file system that clones extents. *)
Definition w_reflink : World :=
  mk_world (files w_plain) (frozen w_plain) true 18 stdio 16 0 linux_strerror [].

(** The same files where closing [out] reports a write-back error. *)
Definition w_flaky : World :=
  mk_world (<["out" := mk_inode Regular 420 "old" (Some EIO)]> (files w_plain))
           (frozen w_plain) false 18 stdio 16 0 linux_strerror [].

(** A text of [n] copies of one byte. *)
Fixpoint fill (n : nat) (c : ascii) : string :=
  match n with
  | O => EmptyString
  | S n' => String c (fill n' c)
  end.

(** The text "./" repeated [n] times. *)
Fixpoint dots (n : nat) : string :=
  match n with
  | O => EmptyString
  | S n' => String "." (String "/" (dots n'))
  end.

(** A relative path of 4096 bytes, "./" 2047 times and then "ab"; its
    first 4095 bytes are a path to the file "a". *)
Definition overlong_dest : string := dots 2047 +:+ "ab".

Definition long_path : list N := replicate 4096 97%N.

End Samples.

(** ** Proof automation *)

Ltac unfold_sys :=
  unfold sys_open, sys_close, sys_ioctl, sys_unlink, sys_clonefile, sys_fail,
         set_files, set_fds, set_errno, log in *.

Ltac bool_hyps :=
  repeat match goal with
         | H : bool_decide _ = true |- _ => apply bool_decide_eq_true in H
         | H : bool_decide _ = false |- _ => apply bool_decide_eq_false in H
         end.

Ltac split_sys := repeat case_match; simplify_eq; simpl in *; bool_hyps.

(** * Properties *)

(** ** Byte strings and UTF-8 *)

Section Bytes_facts.

Lemma str_app_cons (c : ascii) (a b : string) :
  String c a +:+ b = String c (a +:+ b).
Proof. reflexivity. Qed.

Lemma str_app_empty_l (a : string) : ""%string +:+ a = a.
Proof. reflexivity. Qed.

Lemma str_length_app (a b : string) :
  String.length (a +:+ b) = (String.length a + String.length b)%nat.
Proof. induction a as [|c a IH]; [done | rewrite !str_app_cons; simpl; congruence]. Qed.

Lemma str_app_assoc (a b c : string) : (a +:+ b) +:+ c = a +:+ (b +:+ c).
Proof. induction a as [|x a IH]; [done | rewrite !str_app_cons; simpl; congruence]. Qed.

Lemma str_app_empty_r (a : string) : a +:+ "" = a.
Proof. induction a as [|x a IH]; [done | rewrite !str_app_cons; simpl; congruence]. Qed.


Lemma take_all (n : nat) (s : string) :
  (String.length s ≤ n)%nat → Bytes.take n s = s.
Proof.
  revert s; induction n as [|n IH]; intros [|c s]; simpl; try done; try lia.
  intros Hle. rewrite IH; [done | lia].
Qed.

Lemma take_cut (n : nat) (s : string) :
  (n ≤ String.length s)%nat → String.length (Bytes.take n s) = n.
Proof.
  revert s; induction n as [|n IH]; intros [|c s]; simpl; try done; try lia.
  intros Hle. rewrite IH; [done | lia].
Qed.

Lemma take_app (a b : string) : Bytes.take (String.length a) (a +:+ b) = a.
Proof. induction a as [|x a IH]; [by destruct b | rewrite !str_app_cons; simpl; congruence]. Qed.

Lemma take_app_ge (n : nat) (a b : string) :
  (String.length a ≤ n)%nat →
  Bytes.take n (a +:+ b) = a +:+ Bytes.take (n - String.length a) b.
Proof.
  revert n; induction a as [|x a IH]; intros n; simpl.
  - intros _. by rewrite str_app_empty_l, Nat.sub_0_r.
  - destruct n as [|n]; [lia |]. intros Hle. rewrite !str_app_cons. simpl.
    rewrite IH; [done | lia].
Qed.

Lemma snprintf_fits (size : nat) (s : string) :
  (String.length s < size)%nat → Bytes.snprintf size s = s.
Proof. intros Hlt. apply take_all. lia. Qed.


Lemma encode_length (c : N) :
  (1 ≤ String.length (Utf8.encode c) ≤ 4)%nat.
Proof. unfold Utf8.encode. repeat case_match; simpl; lia. Qed.

Lemma write_length (cps : list N) (cap : nat) :
  (String.length (Utf8.write cps cap) ≤ cap)%nat.
Proof.
  revert cap; induction cps as [|c cps IH]; intros cap; simpl; [lia |].
  destruct (Nat.leb_spec (String.length (Utf8.encode c)) cap) as [Hle|Hgt];
    simpl; [| lia].
  rewrite str_length_app. specialize (IH (cap - String.length (Utf8.encode c))%nat). lia.
Qed.

Lemma write_all (cps : list N) (cap : nat) :
  (String.length (Utf8.encode_all cps) ≤ cap)%nat →
  Utf8.write cps cap = Utf8.encode_all cps.
Proof.
  revert cap; induction cps as [|c cps IH]; intros cap; simpl; [done |].
  rewrite str_length_app. intros Hle.
  destruct (Nat.leb_spec (String.length (Utf8.encode c)) cap) as [_|Hgt]; [| lia].
  rewrite IH; [done | lia].
Qed.

Lemma write_prefix (cps : list N) (cap : nat) :
  Bytes.starts_with (Utf8.encode_all cps) (Utf8.write cps cap).
Proof.
  revert cap; induction cps as [|c cps IH]; intros cap; simpl.
  - by exists ""%string.
  - destruct (Nat.leb_spec (String.length (Utf8.encode c)) cap) as [_|_].
    + destruct (IH (cap - String.length (Utf8.encode c))%nat) as [post Hpost].
      exists post. rewrite str_app_assoc. by rewrite <- Hpost.
    + by eexists.
Qed.

Lemma write_nonempty (c : N) (cps : list N) (cap : nat) :
  (4 ≤ cap)%nat → (0 < String.length (Utf8.write (c :: cps) cap))%nat.
Proof.
  intros Hcap. simpl. pose proof (encode_length c) as Hc.
  destruct (Nat.leb_spec (String.length (Utf8.encode c)) cap) as [_|Hgt]; [| lia].
  rewrite str_length_app. lia.
Qed.

End Bytes_facts.

(** ** The kernel model *)


Section Kernel_facts.

Lemma free_fd_spec (w : World) (fd : Z) :
  free_fd w = Some fd → 0 ≤ fd ∧ fds w !! fd = None.
Proof.
  unfold free_fd. intros Hin%head_Some_elem_of.
  apply list_elem_of_filter in Hin as [Hfree Hrange].
  apply elem_of_seqZ in Hrange. split; [lia | done].
Qed.

(** A call of [open] either fails, changing nothing but [errno], or
    returns a descriptor that was not in use and now names the path. *)
Lemma sys_open_spec (p : string) (f m : Z) (w w' : World) (r : Z) :
  sys_open p f m w = (r, w') →
  trace w' = trace w ++ [SysOpen p f m] ∧
  frozen w' = frozen w ∧ strerror w' = strerror w ∧
  ((r = -1 ∧ files w' = files w ∧ fds w' = fds w) ∨
   (0 ≤ r ∧ fds w !! r = None ∧ fds w' = <[r := mk_fd p f]> (fds w) ∧
    errno w' = errno w)).
Proof.
  unfold sys_open. intros Hrun.
  destruct (free_fd (log (SysOpen p f m) w)) as [fd|] eqn:Hfd.
  - apply free_fd_spec in Hfd as [Hpos Hfree]. simpl in Hfree.
    unfold_sys. split_sys; repeat split; auto.
  - unfold_sys. simplify_eq. simpl. repeat split; auto.
Qed.

Lemma sys_open_rdonly (p : string) (m : Z) (w w' : World) (r : Z) :
  sys_open p O_RDONLY m w = (r, w') → files w' = files w.
Proof.
  unfold sys_open. change (has_flag O_RDONLY O_TRUNC && wants_write O_RDONLY) with false.
  unfold_sys. intros Hrun. split_sys; done.
Qed.

(** The destination as [linux_ficlone] opens it: on success the path
    names an empty regular file, and no other path changed. *)
Lemma sys_open_dest (p : string) (w w' : World) (r : Z) :
  sys_open p dest_flags DEFAULT_FILE_MODE w = (r, w') → 0 ≤ r →
  (∃ i, files w' !! p = Some i ∧ i_type i = Regular ∧ i_data i = ""%string) ∧
  (∀ q, q ≠ p → files w' !! q = files w !! q).
Proof.
  unfold sys_open.
  change (has_flag dest_flags O_TRUNC && wants_write dest_flags) with true.
  change (wants_write dest_flags) with true.
  change (has_flag dest_flags O_CREAT) with true.
  unfold_sys. intros Hrun Hpos. split_sys; try lia.
  - split; [eexists; split; [apply lookup_insert_eq | done] |].
    intros q Hq. by rewrite lookup_insert_ne.
  - split; [eexists; split; [apply lookup_insert_eq | done] |].
    intros q Hq. by rewrite lookup_insert_ne.
Qed.

Lemma sys_close_spec (fd : Z) (w w' : World) (r : Z) :
  sys_close fd w = (r, w') →
  trace w' = trace w ++ [SysClose fd] ∧ files w' = files w ∧
  frozen w' = frozen w ∧ strerror w' = strerror w ∧
  fds w' = delete fd (fds w).
Proof.
  unfold_sys. intros Hrun. split_sys; repeat split; auto.
  symmetry. by apply delete_id.
Qed.

Lemma sys_ioctl_spec (fd request arg : Z) (w w' : World) (r : Z) :
  sys_ioctl fd request arg w = (r, w') →
  trace w' = trace w ++ [SysIoctl fd request arg] ∧ fds w' = fds w ∧
  frozen w' = frozen w ∧ strerror w' = strerror w ∧
  (r ≠ 0 → files w' = files w).
Proof. unfold_sys. intros Hrun. split_sys; repeat split; auto; done. Qed.

Lemma sys_unlink_spec (p : string) (w w' : World) (r : Z) :
  sys_unlink p w = (r, w') →
  trace w' = trace w ++ [SysUnlink p] ∧ fds w' = fds w ∧
  strerror w' = strerror w ∧
  (p ∈ frozen w → files w' = files w) ∧
  (∀ i, files w !! p = Some i → i_type i = Regular → p ∉ frozen w →
        files w' !! p = None).
Proof.
  unfold_sys. intros Hrun. split_sys; repeat split; auto; try done.
  - intros; apply lookup_delete_eq.
  - intros i' Hi' Hreg. congruence.
Qed.

Lemma sys_clonefile_spec (src dst : string) (flags : Z) (w w' : World) (r : Z) :
  sys_clonefile src dst flags w = (r, w') →
  trace w' = trace w ++ [SysClonefile src dst flags] ∧ fds w' = fds w ∧
  strerror w' = strerror w ∧
  (r ≠ 0 → files w' = files w) ∧
  (is_Some (files w !! dst) → r = -1 ∧ files w' = files w).
Proof.
  unfold_sys. intros Hrun. split_sys; repeat split; auto; try done.
Qed.

End Kernel_facts.

(** ** The argument validator *)

Section Validator_facts.

Lemma get_string_arg_string (cps : list N) (n : nat) (name : string) :
  get_string_arg (js_string cps) n name =
    let buffer := Utf8.write cps (n - 1) in
    if (String.length buffer =? 0)%nat
    then inl (mk_error Error
                (Bytes.snprintf ARG_ERROR_MSG_SIZE (name +:+ " cannot be empty"))
                None)
    else inr (buffer, String.length buffer).
Proof. reflexivity. Qed.

Lemma get_string_arg_not_string (v : napi_value) (n : nat) (name : string) :
  (napi_typeof v).2 ≠ napi_string →
  get_string_arg v n name =
    inl (mk_error TypeError
           (Bytes.snprintf ARG_ERROR_MSG_SIZE (name +:+ " must be a string"))
           None).
Proof. destruct v; simpl; intros Hty; try done. Qed.

Lemma get_string_arg_ok (v : napi_value) (n : nat) (name buf : string) (len : nat) :
  get_string_arg v n name = inr (buf, len) →
  ∃ cps, v = js_string cps ∧ buf = Utf8.write cps (n - 1) ∧
         len = String.length buf ∧ (0 < len)%nat.
Proof.
  destruct v; try discriminate. rewrite get_string_arg_string. simpl.
  destruct (Nat.eqb_spec (String.length (Utf8.write cps (n - 1))) 0);
    intros Hrun; simplify_eq.
  eexists; repeat split; lia.
Qed.

(** A validation failure never carries an OS error code. *)
Lemma get_string_arg_error (v : napi_value) (n : nat) (name : string) (e : js_error) :
  get_string_arg v n name = inl e → err_errno e = None.
Proof.
  destruct v;
    try (rewrite get_string_arg_not_string by done; intros Hrun; by simplify_eq).
  rewrite get_string_arg_string. simpl.
  case_match; intros Hrun; by simplify_eq.
Qed.

Lemma argv_nth (info : list napi_value) (i : nat) :
  (i < 2)%nat →
  nth i (napi_get_cb_info info 2).2 js_undefined = nth i info js_undefined.
Proof.
  intros Hi. destruct info as [|a [|b rest]]; destruct i as [|[|i]];
    simpl; try done; lia.
Qed.

Lemma valid_dest_argc (info : list napi_value) (n : nat) (name buf : string) (len : nat) :
  get_string_arg (nth 1 info js_undefined) n name = inr (buf, len) →
  (List.length info <? 2)%nat = false.
Proof. destruct info as [|a [|b rest]]; simpl; try done. Qed.

End Validator_facts.

(** ** The Linux strategy, path by path *)

Section Linux_paths.

Context (info : list napi_value) (src dest : string) (src_len dest_len : nat).
Context (w : World).
Hypothesis Hsrc :
  get_string_arg (nth 0 info js_undefined) (PATH_MAX Linux) "src"
    = inr (src, src_len).
Hypothesis Hdest :
  get_string_arg (nth 1 info js_undefined) (PATH_MAX Linux) "dest"
    = inr (dest, dest_len).

(** With both paths accepted, the call is its sequence of system calls. *)
Lemma linux_ficlone_valid :
  linux_ficlone info w =
    let '(src_fd, w1) := sys_open (Bytes.c_str src) O_RDONLY 0 w in
    if src_fd <? 0 then throw_errno_error "open source" (errno w1) w1
    else
      let '(dest_fd, w2) :=
        sys_open (Bytes.c_str dest) dest_flags DEFAULT_FILE_MODE w1 in
      if dest_fd <? 0
      then throw_errno_error "open dest" (errno w2) (sys_close src_fd w2).2
      else
        let '(result, w3) := sys_ioctl dest_fd FICLONE src_fd w2 in
        let w5 := (sys_close dest_fd (sys_close src_fd w3).2).2 in
        if negb (result =? 0)
        then throw_errno_error "ioctl FICLONE" (errno w3)
                               (sys_unlink (Bytes.c_str dest) w5).2
        else (Returned js_undefined, w5).
Proof.
  unfold linux_ficlone.
  pose proof (argv_nth info 0 ltac:(lia)) as H0.
  pose proof (argv_nth info 1 ltac:(lia)) as H1.
  destruct (napi_get_cb_info info 2) as [argc argv] eqn:Hinfo.
  assert (argc = List.length info) as -> by (unfold napi_get_cb_info in Hinfo; congruence).
  simpl in H0, H1. rewrite (valid_dest_argc _ _ _ _ _ Hdest), H0, H1, Hsrc, Hdest.
  unfold mbind, M_bind, mret, M_ret, get_errno.
  destruct (sys_open (Bytes.c_str src) O_RDONLY 0 w) as [src_fd w1].
  destruct (src_fd <? 0); [done |].
  destruct (sys_open (Bytes.c_str dest) dest_flags DEFAULT_FILE_MODE w1) as [dest_fd w2].
  destruct (dest_fd <? 0).
  { by destruct (sys_close src_fd w2). }
  destruct (sys_ioctl dest_fd FICLONE src_fd w2) as [result w3].
  destruct (sys_close src_fd w3) as [r4 w4]. simpl.
  destruct (sys_close dest_fd w4) as [r5 w5]. simpl.
  destruct (negb (result =? 0)); [| done].
  by destruct (sys_unlink (Bytes.c_str dest) w5).
Qed.

End Linux_paths.

(** ** The Linux strategy *)

Section Linux_rejects.

(** A refused argument ends the call before the first system call. *)
Lemma linux_ficlone_refused (info : list napi_value) (w : World) :
  refused Linux info →
  ∃ e,
    linux_ficlone info w = (Thrown e, w) ∧ err_errno e = None ∧
    ((2 ≤ List.length info)%nat →
       get_string_arg (nth 0 info js_undefined) (PATH_MAX Linux) "src" = inl e ∨
       get_string_arg (nth 1 info js_undefined) (PATH_MAX Linux) "dest" = inl e).
Proof.
  intros Href. unfold linux_ficlone.
  pose proof (argv_nth info 0 ltac:(lia)) as H0.
  pose proof (argv_nth info 1 ltac:(lia)) as H1.
  destruct (napi_get_cb_info info 2) as [argc argv] eqn:Hinfo.
  assert (argc = List.length info) as ->
    by (unfold napi_get_cb_info in Hinfo; congruence).
  simpl in H0, H1. rewrite H0, H1.
  destruct (Nat.ltb_spec (List.length info) 2) as [Hfew|_].
  { eexists. repeat split. lia. }
  destruct (get_string_arg (nth 0 info js_undefined) (PATH_MAX Linux) "src")
    as [e0|[src sl]] eqn:Hsrc.
  { exists e0. repeat split; [by eapply get_string_arg_error | by left]. }
  destruct (get_string_arg (nth 1 info js_undefined) (PATH_MAX Linux) "dest")
    as [e1|[dest dl]] eqn:Hdest.
  { exists e1. repeat split; [by eapply get_string_arg_error | by right]. }
  destruct Href as [[e He]|[e He]]; congruence.
Qed.

End Linux_rejects.

Section Darwin_clone.

Lemma darwin_clonefile_refused (info : list napi_value) (w : World) :
  refused Darwin info →
  ∃ e,
    darwin_clonefile info w = (Thrown e, w) ∧ err_errno e = None ∧
    ((2 ≤ List.length info)%nat →
       get_string_arg (nth 0 info js_undefined) (PATH_MAX Darwin) "src" = inl e ∨
       get_string_arg (nth 1 info js_undefined) (PATH_MAX Darwin) "dest" = inl e).
Proof.
  intros Href. unfold darwin_clonefile.
  pose proof (argv_nth info 0 ltac:(lia)) as H0.
  pose proof (argv_nth info 1 ltac:(lia)) as H1.
  destruct (napi_get_cb_info info 2) as [argc argv] eqn:Hinfo.
  assert (argc = List.length info) as ->
    by (unfold napi_get_cb_info in Hinfo; congruence).
  simpl in H0, H1. rewrite H0, H1.
  destruct (Nat.ltb_spec (List.length info) 2) as [Hfew|_].
  { eexists. repeat split. lia. }
  destruct (get_string_arg (nth 0 info js_undefined) (PATH_MAX Darwin) "src")
    as [e0|[src sl]] eqn:Hsrc.
  { exists e0. repeat split; [by eapply get_string_arg_error | by left]. }
  destruct (get_string_arg (nth 1 info js_undefined) (PATH_MAX Darwin) "dest")
    as [e1|[dest dl]] eqn:Hdest.
  { exists e1. repeat split; [by eapply get_string_arg_error | by right]. }
  destruct Href as [[e He]|[e He]]; congruence.
Qed.

(** With both paths accepted, the call is the one [clonefile]. *)
Lemma darwin_clonefile_valid (info : list napi_value) (src dest : string) (w : World) :
  accepted Darwin info src dest →
  darwin_clonefile info w =
    let '(result, w1) := sys_clonefile (Bytes.c_str src) (Bytes.c_str dest) 0 w in
    if negb (result =? 0) then throw_errno_error "clonefile" (errno w1) w1
    else (Returned js_undefined, w1).
Proof.
  intros (sl & dl & Hsrc & Hdest). unfold darwin_clonefile.
  pose proof (argv_nth info 0 ltac:(lia)) as H0.
  pose proof (argv_nth info 1 ltac:(lia)) as H1.
  destruct (napi_get_cb_info info 2) as [argc argv] eqn:Hinfo.
  assert (argc = List.length info) as ->
    by (unfold napi_get_cb_info in Hinfo; congruence).
  simpl in H0, H1. rewrite (valid_dest_argc _ _ _ _ _ Hdest), H0, H1, Hsrc, Hdest.
  unfold mbind, M_bind, mret, M_ret, get_errno.
  destruct (sys_clonefile (Bytes.c_str src) (Bytes.c_str dest) 0 w) as [result w1].
  by destruct (negb (result =? 0)).
Qed.

End Darwin_clone.

Section Linux_clone.

Context (info : list napi_value) (src dest : string) (w : World).
Hypothesis Hvalid : accepted Linux info src dest.

Context (src_fd dest_fd result : Z) (w1 w2 w3 : World).
Hypothesis Hopen_src :
  sys_open (Bytes.c_str src) O_RDONLY 0 w = (src_fd, w1).
Hypothesis Hopen_dest :
  sys_open (Bytes.c_str dest) dest_flags DEFAULT_FILE_MODE w1 = (dest_fd, w2).
Hypothesis Hioctl :
  sys_ioctl dest_fd FICLONE src_fd w2 = (result, w3).

Lemma open_source_failure :
  src_fd < 0 →
  linux_ficlone info w = throw_errno_error "open source" (errno w1) w1.
Proof.
  intros Hneg. destruct Hvalid as (sl & dl & Hs & Hd).
  rewrite (linux_ficlone_valid _ _ _ _ _ w Hs Hd), Hopen_src.
  by destruct (Z.ltb_spec src_fd 0); [| lia].
Qed.

Lemma open_dest_failure :
  0 ≤ src_fd → dest_fd < 0 →
  linux_ficlone info w =
    throw_errno_error "open dest" (errno w2) (sys_close src_fd w2).2.
Proof.
  intros Hpos Hneg. destruct Hvalid as (sl & dl & Hs & Hd).
  rewrite (linux_ficlone_valid _ _ _ _ _ w Hs Hd), Hopen_src.
  destruct (Z.ltb_spec src_fd 0); [lia |]. rewrite Hopen_dest.
  by destruct (Z.ltb_spec dest_fd 0); [| lia].
Qed.

Lemma after_ioctl :
  0 ≤ src_fd → 0 ≤ dest_fd →
  linux_ficlone info w =
    let w5 := (sys_close dest_fd (sys_close src_fd w3).2).2 in
    if negb (result =? 0)
    then throw_errno_error "ioctl FICLONE" (errno w3)
                           (sys_unlink (Bytes.c_str dest) w5).2
    else (Returned js_undefined, w5).
Proof.
  intros Hpos1 Hpos2. destruct Hvalid as (sl & dl & Hs & Hd).
  rewrite (linux_ficlone_valid _ _ _ _ _ w Hs Hd), Hopen_src.
  destruct (Z.ltb_spec src_fd 0); [lia |]. rewrite Hopen_dest.
  destruct (Z.ltb_spec dest_fd 0); [lia |]. by rewrite Hioctl.
Qed.

(** The world after the two descriptors were closed. *)
Lemma after_closes (w5 : World) :
  0 ≤ src_fd → 0 ≤ dest_fd →
  w5 = (sys_close dest_fd (sys_close src_fd w3).2).2 →
  trace w5 = trace w ++
    [SysOpen (Bytes.c_str src) O_RDONLY 0;
     SysOpen (Bytes.c_str dest) dest_flags DEFAULT_FILE_MODE;
     SysIoctl dest_fd FICLONE src_fd; SysClose src_fd; SysClose dest_fd] ∧
  fds w5 = fds w ∧ files w5 = files w3 ∧ frozen w5 = frozen w ∧
  strerror w5 = strerror w.
Proof.
  intros Hpos1 Hpos2 ->.
  destruct (sys_open_spec _ _ _ _ _ _ Hopen_src)
    as (Ht1 & Hz1 & Hs1 & [(? & _)|(_ & Hfree1 & Hfds1 & _)]); [lia |].
  destruct (sys_open_spec _ _ _ _ _ _ Hopen_dest)
    as (Ht2 & Hz2 & Hs2 & [(? & _)|(_ & Hfree2 & Hfds2 & _)]); [lia |].
  destruct (sys_ioctl_spec _ _ _ _ _ _ Hioctl) as (Ht3 & Hfds3 & Hz3 & Hs3 & _).
  destruct (sys_close src_fd w3) as [r4 w4] eqn:Hc4.
  destruct (sys_close_spec _ _ _ _ Hc4) as (Ht4 & Hf4 & Hz4 & Hs4 & Hfds4).
  simpl. destruct (sys_close dest_fd w4) as [r5 w5] eqn:Hc5.
  destruct (sys_close_spec _ _ _ _ Hc5) as (Ht5 & Hf5 & Hz5 & Hs5 & Hfds5).
  simpl. repeat split.
  - rewrite Ht5, Ht4, Ht3, Ht2, Ht1. rewrite <- !app_assoc. reflexivity.
  - rewrite Hfds5, Hfds4, Hfds3, Hfds2, Hfds1.
    rewrite Hfds1 in Hfree2.
    apply lookup_insert_None in Hfree2 as [Hfree2 Hne].
    rewrite delete_insert_ne by done. rewrite !delete_insert_eq.
    rewrite (delete_id _ src_fd) by done. by apply delete_id.
  - congruence.
  - congruence.
  - congruence.
Qed.

(** The world in which the failed ioctl is reported. *)
Lemma ioctl_failure :
  0 ≤ src_fd → 0 ≤ dest_fd → result ≠ 0 →
  ∃ w',
    linux_ficlone info w = throw_errno_error "ioctl FICLONE" (errno w3) w' ∧
    trace w' = trace w ++
      [SysOpen (Bytes.c_str src) O_RDONLY 0;
       SysOpen (Bytes.c_str dest) dest_flags DEFAULT_FILE_MODE;
       SysIoctl dest_fd FICLONE src_fd; SysClose src_fd; SysClose dest_fd;
       SysUnlink (Bytes.c_str dest)] ∧
    fds w' = fds w ∧ strerror w' = strerror w ∧
    (Bytes.c_str dest ∉ frozen w → files w' !! Bytes.c_str dest = None) ∧
    (Bytes.c_str dest ∈ frozen w → files w' = files w2).
Proof.
  intros Hpos1 Hpos2 Hres.
  rewrite (after_ioctl Hpos1 Hpos2).
  destruct (after_closes _ Hpos1 Hpos2 eq_refl) as (Ht5 & Hfds5 & Hf5 & Hz5 & Hs5).
  set (w5 := (sys_close dest_fd (sys_close src_fd w3).2).2) in *.
  destruct (Z.eqb_spec result 0) as [|_]; [done |]. cbn [negb].
  destruct (sys_unlink (Bytes.c_str dest) w5) as [r6 w6] eqn:Hu.
  destruct (sys_unlink_spec _ _ _ _ Hu) as (Ht6 & Hfds6 & Hs6 & Hkeep & Hgone).
  destruct (sys_ioctl_spec _ _ _ _ _ _ Hioctl) as (_ & _ & _ & _ & Hf3).
  destruct (sys_open_dest _ _ _ _ Hopen_dest Hpos2) as [(i & Hi & Hreg & _) _].
  exists w6. cbn [snd]. repeat split.
  - rewrite Ht6, Ht5. by rewrite <- app_assoc.
  - congruence.
  - congruence.
  - intros Hfree. apply (Hgone i); [| done |].
    + by rewrite Hf5, Hf3.
    + by rewrite Hz5.
  - intros Hfrozen. rewrite Hkeep, Hf5, Hf3; [done.. |]. by rewrite Hz5.
Qed.

(** C1 (amended): when both opens succeed and the FICLONE ioctl fails,
    [linux_ficlone] calls [unlink] on the destination after it closed both
    descriptors and before it throws; the result of [unlink] is ignored,
    so the destination is gone after the failed call whenever its
    directory entry can be removed. *)
Theorem failed_ioctl_unlinks_destination :
  0 ≤ src_fd → 0 ≤ dest_fd → result ≠ 0 →
  ∃ e w',
    linux_ficlone info w = (Thrown e, w') ∧
    trace w' = trace w ++
      [SysOpen (Bytes.c_str src) O_RDONLY 0;
       SysOpen (Bytes.c_str dest) dest_flags DEFAULT_FILE_MODE;
       SysIoctl dest_fd FICLONE src_fd; SysClose src_fd; SysClose dest_fd;
       SysUnlink (Bytes.c_str dest)] ∧
    (Bytes.c_str dest ∉ frozen w → files w' !! Bytes.c_str dest = None).
Proof.
  intros Hpos1 Hpos2 Hres.
  destruct (ioctl_failure Hpos1 Hpos2 Hres)
    as (w' & Hrun & Ht & _ & _ & Hgone & _).
  eexists _, w'. split; [by rewrite Hrun |]. by split.
Qed.

(** C8: the order of the steps of [linux_ficlone].  The source is opened
    read-only and the destination write-only with O_CREAT and O_TRUNC and
    mode 0644.  A failed source open is reported with label "open source"
    and leaves files and descriptors as they were; a failed destination
    open is reported with label "open dest" and the errno of that open,
    after the source descriptor was closed; a failed ioctl is reported
    with label "ioctl FICLONE" and the errno read right after the ioctl,
    whatever the two closes and the unlink did to errno afterwards. *)
Theorem linux_ficlone_step_order :
  DEFAULT_FILE_MODE = Z.lor (Z.lor S_IRUSR S_IWUSR) (Z.lor S_IRGRP S_IROTH) ∧
  (wants_read O_RDONLY = true ∧ wants_write O_RDONLY = false) ∧
  (wants_write dest_flags = true ∧ wants_read dest_flags = false ∧
   has_flag dest_flags O_CREAT = true ∧ has_flag dest_flags O_TRUNC = true) ∧
  (src_fd < 0 →
     linux_ficlone info w = throw_errno_error "open source" (errno w1) w1 ∧
     trace w1 = trace w ++ [SysOpen (Bytes.c_str src) O_RDONLY 0] ∧
     files w1 = files w ∧ fds w1 = fds w ∧ strerror w1 = strerror w) ∧
  (0 ≤ src_fd → dest_fd < 0 →
     ∃ w',
       linux_ficlone info w = throw_errno_error "open dest" (errno w2) w' ∧
       trace w' = trace w ++
         [SysOpen (Bytes.c_str src) O_RDONLY 0;
          SysOpen (Bytes.c_str dest) dest_flags DEFAULT_FILE_MODE;
          SysClose src_fd] ∧
       files w' = files w ∧ fds w' = fds w ∧ strerror w' = strerror w) ∧
  (0 ≤ src_fd → 0 ≤ dest_fd → result ≠ 0 →
     ∃ w',
       linux_ficlone info w = throw_errno_error "ioctl FICLONE" (errno w3) w' ∧
       trace w' = trace w ++
         [SysOpen (Bytes.c_str src) O_RDONLY 0;
          SysOpen (Bytes.c_str dest) dest_flags DEFAULT_FILE_MODE;
          SysIoctl dest_fd FICLONE src_fd; SysClose src_fd; SysClose dest_fd;
          SysUnlink (Bytes.c_str dest)] ∧
       strerror w' = strerror w).
Proof.
  split; [reflexivity |]. split; [by split |].
  split; [by repeat split |].
  destruct (sys_open_spec _ _ _ _ _ _ Hopen_src) as (Ht1 & _ & Hs1 & Hcase1).
  split; [| split].
  - intros Hneg. split; [by apply open_source_failure |].
    destruct Hcase1 as [(_ & Hf1 & Hfds1)|(? & _)]; [done | lia].
  - intros Hpos1 Hneg.
    destruct Hcase1 as [(? & _)|(_ & Hfree1 & Hfds1 & _)]; [lia |].
    destruct (sys_open_spec _ _ _ _ _ _ Hopen_dest)
      as (Ht2 & _ & Hs2 & [(_ & Hf2 & Hfds2)|(? & _)]); [| lia].
    rewrite (open_dest_failure Hpos1 Hneg).
    destruct (sys_close src_fd w2) as [r3 w'] eqn:Hc.
    destruct (sys_close_spec _ _ _ _ Hc) as (Ht & Hf & _ & Hs & Hfds).
    exists w'. cbn [snd]. repeat split.
    + rewrite Ht, Ht2, Ht1. by rewrite <- !app_assoc.
    + rewrite Hf, Hf2. by eapply sys_open_rdonly.
    + rewrite Hfds, Hfds2, Hfds1. by apply delete_insert_id.
    + congruence.
  - intros Hpos1 Hpos2 Hres.
    destruct (ioctl_failure Hpos1 Hpos2 Hres) as (w' & Hrun & Ht & _ & Hs & _).
    by exists w'.
Qed.


End Linux_clone.

Section Descriptors.

(** Either both arguments pass the validator or one is refused. *)
Lemma accepted_or_refused (t : target) (info : list napi_value) :
  (∃ src dest, accepted t info src dest) ∨ refused t info.
Proof.
  unfold accepted, refused.
  destruct (get_string_arg (nth 0 info js_undefined) (PATH_MAX t) "src")
    as [e0|[src sl]]; [right; left; by eexists |].
  destruct (get_string_arg (nth 1 info js_undefined) (PATH_MAX t) "dest")
    as [e1|[dest dl]]; [right; right; by eexists |].
  left. by exists src, dest, sl, dl.
Qed.

(** C9: whatever the arguments and the world, the descriptor table at the
    end of a call of [linux_ficlone] is the table at its start: nothing
    was opened when an argument is refused or the source cannot be opened,
    the source descriptor is closed when the destination cannot be
    opened, and both descriptors are closed after the ioctl, whether it
    succeeded or failed. *)
Theorem linux_ficlone_closes_descriptors (info : list napi_value) (w : World) :
  fds (linux_ficlone info w).2 = fds w.
Proof.
  destruct (accepted_or_refused Linux info) as [(src & dest & Hvalid)|Href].
  2: { destruct (linux_ficlone_refused info w Href) as (e & -> & _). done. }
  destruct (sys_open (Bytes.c_str src) O_RDONLY 0 w) as [src_fd w1] eqn:H1.
  destruct (sys_open (Bytes.c_str dest) dest_flags DEFAULT_FILE_MODE w1)
    as [dest_fd w2] eqn:H2.
  destruct (sys_ioctl dest_fd FICLONE src_fd w2) as [result w3] eqn:H3.
  destruct (sys_open_spec _ _ _ _ _ _ H1)
    as (_ & _ & _ & [(-> & _ & Hfds1)|(Hpos1 & Hfree1 & Hfds1 & _)]).
  { rewrite (open_source_failure _ _ _ _ Hvalid _ _ H1) by lia. done. }
  destruct (sys_open_spec _ _ _ _ _ _ H2)
    as (_ & _ & _ & [(-> & _ & Hfds2)|(Hpos2 & _)]).
  { rewrite (open_dest_failure _ _ _ _ Hvalid _ _ _ _ H1 H2) by lia.
    destruct (sys_close src_fd w2) as [r w'] eqn:Hc.
    destruct (sys_close_spec _ _ _ _ Hc) as (_ & _ & _ & _ & Hfds).
    cbn [snd throw_errno_error].
    rewrite Hfds, Hfds2, Hfds1. by apply delete_insert_id. }
  rewrite (after_ioctl _ _ _ _ Hvalid _ _ _ _ _ _ H1 H2 H3) by lia.
  destruct (after_closes _ _ _ _ _ _ _ _ _ H1 H2 H3 _ Hpos1 Hpos2 eq_refl)
    as (_ & Hfds5 & _).
  cbn zeta. destruct (negb (result =? 0)); [| done].
  destruct (sys_unlink (Bytes.c_str dest)
              (sys_close dest_fd (sys_close src_fd w3).2).2) as [r6 w6] eqn:Hu.
  destruct (sys_unlink_spec _ _ _ _ Hu) as (_ & Hfds6 & _).
  cbn [snd throw_errno_error]. congruence.
Qed.

End Descriptors.

(** ** Validation comes first *)

Section Validation_first.

Lemma module_clone (t : target) :
  module t !! "clone" =
    match t with
    | Darwin => Some (js_function cb_darwin_clonefile)
    | Linux => Some (js_function cb_linux_ficlone)
    | Other => None
    end.
Proof. by destruct t; vm_compute. Qed.

(** The validator refuses exactly the values that are not strings and
    the empty string, on every target. *)
Lemma get_string_arg_inl_iff (t : target) (v : napi_value) (name : string) :
  (∃ e, get_string_arg v (PATH_MAX t) name = inl e) ↔
  ((napi_typeof v).2 ≠ napi_string ∨ v = js_string []).
Proof.
  assert (4 ≤ PATH_MAX t - 1)%nat as Hcap by (destruct t; simpl; lia).
  split.
  - intros [e Hrun]. destruct v as [| | | |cps| | | | |]; try (by left).
    right. rewrite get_string_arg_string in Hrun. cbn zeta in Hrun.
    destruct cps as [|c cps]; [done |].
    pose proof (write_nonempty c cps (PATH_MAX t - 1) Hcap) as Hlen.
    by destruct (Nat.eqb_spec
                   (String.length (Utf8.write (c :: cps) (PATH_MAX t - 1))) 0);
      [lia |].
  - intros [Hty| ->].
    + rewrite get_string_arg_not_string by done. by eexists.
    + rewrite get_string_arg_string. by eexists.
Qed.

(** C7 (amended): on both strategies the validator refuses an argument
    exactly when it is not a string (a missing argument is [undefined])
    or is the empty string; there is no refusal for length.  A clone call
    with a refused argument throws an error without an OS error code and
    returns in the world it started in: the trace holds no new system
    call, no descriptor was opened and no file was created or changed.
    When two arguments were passed the error is the one the validator
    raised, for the source or for the destination. *)
Theorem clone_validates_before_any_syscall
    (t : target) (info : list napi_value) (w : World) :
  t ≠ Other →
  (refused t info ↔
     ((napi_typeof (nth 0 info js_undefined)).2 ≠ napi_string ∨
      nth 0 info js_undefined = js_string []) ∨
     ((napi_typeof (nth 1 info js_undefined)).2 ≠ napi_string ∨
      nth 1 info js_undefined = js_string [])) ∧
  (refused t info →
   ∃ e,
     call_export t (module t) "clone" info w = (Thrown e, w) ∧
     err_errno e = None ∧
     ((2 ≤ List.length info)%nat →
        get_string_arg (nth 0 info js_undefined) (PATH_MAX t) "src" = inl e ∨
        get_string_arg (nth 1 info js_undefined) (PATH_MAX t) "dest" = inl e)).
Proof.
  intros Ht. split.
  - unfold refused. by rewrite !get_string_arg_inl_iff.
  - intros Href. unfold call_export. rewrite module_clone.
    destruct t; [| | done]; cbn [invoke].
    + apply darwin_clonefile_refused, Href.
    + apply linux_ficlone_refused, Href.
Qed.

End Validation_first.

(** ** The validator and the path-length capacity *)

Section Capacity.

(** The copy made by Node-API is the encoding of the first [k] characters,
    for the largest [k] whose encoding fits the room. *)
Lemma write_whole (cps : list N) (cap : nat) :
  ∃ k,
    Utf8.write cps cap = Utf8.encode_all (take k cps) ∧
    (k = List.length cps ∨
     ∃ c, cps !! k = Some c ∧
          (cap < String.length (Utf8.write cps cap)
                 + String.length (Utf8.encode c))%nat).
Proof.
  revert cap; induction cps as [|c cps IH]; intros cap.
  { exists 0%nat. split; [done | by left]. }
  cbn [Utf8.write]. cbn zeta.
  destruct (Nat.leb_spec (String.length (Utf8.encode c)) cap) as [Hle|Hgt].
  - destruct (IH (cap - String.length (Utf8.encode c))%nat)
      as (k & Hk & Hmax).
    exists (S k). split; [cbn; by rewrite Hk |].
    destruct Hmax as [->|(c' & Hc' & Hover)]; [by left |].
    right. exists c'. split; [done |]. rewrite str_length_app. lia.
  - exists 0%nat. split; [done |]. right. exists c. split; [done |].
    simpl. lia.
Qed.

(** The C string of a buffer is a prefix of the buffer. *)
Lemma c_str_prefix (buf : string) : Bytes.starts_with buf (Bytes.c_str buf).
Proof.
  induction buf as [|c buf [post Hpost]]; [by exists ""%string |].
  cbn [Bytes.c_str]. destruct (Ascii.eqb c Ascii.zero); [by eexists |].
  exists post. rewrite str_app_cons. by rewrite <- Hpost.
Qed.

(** It is the whole buffer when no byte of the buffer is NUL. *)
Lemma c_str_no_nul (buf : string) :
  ¬ Bytes.contains buf (String Ascii.zero "") → Bytes.c_str buf = buf.
Proof.
  induction buf as [|c buf IH]; [done |]. intros Hno. cbn [Bytes.c_str].
  destruct (Ascii.eqb_spec c Ascii.zero) as [->|_].
  { destruct Hno. by exists ""%string, buf. }
  rewrite IH; [done |]. intros (pre & post & ->).
  apply Hno. by exists (String c pre), post.
Qed.

(** C2 (amended): the validator has no path-too-long error.  It refuses
    only a value that is not a string and the empty string.  The buffer
    it accepts is shorter than the capacity and not empty.  It holds the
    UTF-8 encoding of the first [k] characters of the argument, for the
    largest [k] that fits [PATH_MAX - 1] bytes: all the characters, or
    the next one would not fit; so it is the whole encoding whenever that
    is shorter than the capacity.  The path the system calls receive is
    the C string of the buffer, the bytes before its first NUL: a prefix
    of the buffer, no longer than it, and the buffer itself when the
    buffer holds no NUL byte. *)
Theorem get_string_arg_capacity (t : target) (v : napi_value) (name : string) :
  match get_string_arg v (PATH_MAX t) name with
  | inr (buf, len) =>
      (0 < len < PATH_MAX t)%nat ∧ len = String.length buf ∧
      (∃ cps,
         v = js_string cps ∧
         Bytes.starts_with (Utf8.encode_all cps) buf ∧
         ((String.length (Utf8.encode_all cps) < PATH_MAX t)%nat →
            buf = Utf8.encode_all cps) ∧
         ∃ k,
           buf = Utf8.encode_all (take k cps) ∧
           (k = List.length cps ∨
            ∃ c, cps !! k = Some c ∧
                 (PATH_MAX t - 1
                    < String.length buf + String.length (Utf8.encode c))%nat)) ∧
      Bytes.starts_with buf (Bytes.c_str buf) ∧
      (String.length (Bytes.c_str buf) ≤ len)%nat ∧
      (¬ Bytes.contains buf (String Ascii.zero "") → Bytes.c_str buf = buf)
  | inl e => (napi_typeof v).2 ≠ napi_string ∨ v = js_string []
  end.
Proof.
  assert (4 ≤ PATH_MAX t - 1 < PATH_MAX t)%nat as Hcap
    by (destruct t; simpl; lia).
  destruct (get_string_arg v (PATH_MAX t) name) as [e|[buf len]] eqn:Hrun.
  - destruct v as [| | | |cps| | | | |]; try (by left).
    right. rewrite get_string_arg_string in Hrun. cbn zeta in Hrun.
    destruct cps as [|c cps]; [done |].
    pose proof (write_nonempty c cps (PATH_MAX t - 1) ltac:(lia)) as Hlen.
    destruct (Nat.eqb_spec (String.length (Utf8.write (c :: cps) (PATH_MAX t - 1))) 0);
      [lia | done].
  - apply get_string_arg_ok in Hrun as (cps & -> & -> & -> & Hpos).
    pose proof (write_length cps (PATH_MAX t - 1)) as Hle.
    split; [lia |]. split; [done |]. split; [| split; [| split]].
    + exists cps. split; [done |]. split; [apply write_prefix |].
      split; [intros Hfits; apply write_all; lia |].
      apply write_whole.
    + apply c_str_prefix.
    + destruct (c_str_prefix (Utf8.write cps (PATH_MAX t - 1))) as [post Hpost].
      rewrite Hpost at 2. rewrite str_length_app. lia.
    + apply c_str_no_nul.
Qed.

End Capacity.

(** ** The error translator *)

Section Translator.




End Translator.

(** ** Capability queries and module registration *)

Section Capabilities.

Lemma call_repeatedly_const (n : nat) (f : M completion) (v : completion) :
  (∀ w, f w = (v, w)) →
  ∀ w, call_repeatedly n f w = (replicate n v, w).
Proof.
  intros Hconst. induction n as [|n IH]; intros w; [done |].
  cbn [call_repeatedly]. unfold mbind, M_bind, mret, M_ret.
  by rewrite Hconst, IH.
Qed.

(** C4 (amended): [getPlatform()] returns "darwin" on darwin builds,
    "linux" on linux builds and "unknown" on every other build, and
    leaves the world as it is. *)
Theorem get_platform_names (t : target) (info : list napi_value) (w : World) :
  ∃ name,
    call_export t (module t) "getPlatform" info w
      = (Returned (napi_create_string_utf8 name), w) ∧
    name = match t with
           | Darwin => "darwin"
           | Linux => "linux"
           | Other => "unknown"
           end ∧
    (name = "darwin" ∨ name = "linux" ∨ name = "unknown")%string.
Proof.
  eexists. split; [| split; [reflexivity |]].
  - unfold call_export.
    assert (module t !! "getPlatform" = Some (js_function cb_get_platform)) as ->
      by (by destruct t; vm_compute).
    reflexivity.
  - destruct t; auto.
Qed.

(** C6: the capability queries are constants of the build.  Called any
    number of times in a row, with any arguments and in any world,
    [isAvailable()] answers true on darwin and on linux builds,
    [supportsDirectory()] answers true on darwin builds and false on
    linux builds, and the world is left as it was. *)
Theorem capability_queries_are_constants
    (n : nat) (info : list napi_value) (w : World) :
  call_repeatedly n (call_export Darwin (module Darwin) "isAvailable" info) w
    = (replicate n (Returned (js_boolean true)), w) ∧
  call_repeatedly n (call_export Linux (module Linux) "isAvailable" info) w
    = (replicate n (Returned (js_boolean true)), w) ∧
  call_repeatedly n (call_export Darwin (module Darwin) "supportsDirectory" info) w
    = (replicate n (Returned (js_boolean true)), w) ∧
  call_repeatedly n (call_export Linux (module Linux) "supportsDirectory" info) w
    = (replicate n (Returned (js_boolean false)), w).
Proof.
  repeat split; apply call_repeatedly_const; intros w'; unfold call_export.
  - by assert (module Darwin !! "isAvailable"
               = Some (js_function cb_darwin_is_available)) as -> by by vm_compute.
  - by assert (module Linux !! "isAvailable"
               = Some (js_function cb_linux_is_available)) as -> by by vm_compute.
  - by assert (module Darwin !! "supportsDirectory"
               = Some (js_function cb_darwin_supports_directory)) as -> by by vm_compute.
  - by assert (module Linux !! "supportsDirectory"
               = Some (js_function cb_linux_supports_directory)) as -> by by vm_compute.
Qed.

(** C3: on a build for neither platform, [Init] sets [isAvailable] to the
    boolean false, not to a function as the darwin and linux builds do:
    the call [isAvailable()] throws a TypeError instead of returning
    false.  [clone] and [supportsDirectory] are not set at all. *)
Theorem unsupported_isAvailable_is_not_callable
    (info : list napi_value) (w : World) :
  module Other !! "isAvailable" = Some (js_boolean false) ∧
  callable (js_boolean false) = false ∧
  call_export Other (module Other) "isAvailable" info w
    = (Thrown (mk_error TypeError "isAvailable is not a function" None), w) ∧
  module Other !! "clone" = None ∧
  module Other !! "supportsDirectory" = None ∧
  module Darwin !! "isAvailable" = Some (js_function cb_darwin_is_available) ∧
  module Linux !! "isAvailable" = Some (js_function cb_linux_is_available).
Proof.
  assert (module Other !! "isAvailable" = Some (js_boolean false)) as Hprop
    by by vm_compute.
  repeat split; try done; unfold call_export; by rewrite Hprop.
Qed.

End Capabilities.

(** ** The theorems at concrete inputs *)

Section Concrete.

Import Samples.

Example FICLONE_value : FICLONE = 0x40049409.
Proof. reflexivity. Qed.

Example dest_flags_value : dest_flags = 577.   (* 01101 *)
Proof. reflexivity. Qed.

Example encode_e_acute : Utf8.encode 233 = String "195" (String "169" "").
Proof. reflexivity. Qed.

Example encode_euro :
  Utf8.encode 8364 = String "226" (String "130" (String "172" "")).
Proof. reflexivity. Qed.

Example encode_emoji :
  Utf8.encode 128512
    = String "240" (String "159" (String "152" (String "128" ""))).
Proof. reflexivity. Qed.

(** A character that does not fit whole is not written in part. *)
Example write_whole_characters :
  Utf8.write [97; 8364; 98]%N 3 = "a"%string.
Proof. reflexivity. Qed.

(** The path the kernel sees ends at the first NUL of the buffer. *)
Example c_str_stops_at_nul :
  Bytes.c_str (String "a" (String "000" (String "b" ""))) = "a"%string.
Proof. reflexivity. Qed.

(** A clone that succeeds: the destination holds the bytes of the source
    and the descriptors are closed. *)
Example clone_on_reflink :
  (linux_ficlone [str "a.txt"; str "new"] w_reflink).1 = Returned js_undefined ∧
  files (linux_ficlone [str "a.txt"; str "new"] w_reflink).2 !! "new"
    = Some (file 420 "hello") ∧
  fds (linux_ficlone [str "a.txt"; str "new"] w_reflink).2 = fds w_reflink.
Proof. repeat split; by vm_compute. Qed.

Lemma accepted_plain (t : target) :
  accepted t [str "a.txt"; str "out"] "a.txt" "out".
Proof. exists 5%nat, 3%nat. by destruct t; vm_compute. Defined.

(** C1 at a clone of [a.txt] onto [out] on a file system without reflink:
    the ioctl fails, [out] is unlinked, and [out] is gone. *)
Lemma failed_ioctl_unlinks_destination_witness :
  accepted Linux [str "a.txt"; str "out"] "a.txt" "out" ∧
  (sys_open "a.txt" O_RDONLY 0 w_plain).1 = 3 ∧
  (sys_open "out" dest_flags DEFAULT_FILE_MODE
     (sys_open "a.txt" O_RDONLY 0 w_plain).2).1 = 4 ∧
  (sys_ioctl 4 FICLONE 3
     (sys_open "out" dest_flags DEFAULT_FILE_MODE
        (sys_open "a.txt" O_RDONLY 0 w_plain).2).2).1 = -1 ∧
  ∃ e w',
    linux_ficlone [str "a.txt"; str "out"] w_plain = (Thrown e, w') ∧
    last (trace w') = Some (SysUnlink "out") ∧
    files w' !! "out" = None.
Proof.
  split; [apply accepted_plain |]. repeat (split; [by vm_compute |]).
  destruct (failed_ioctl_unlinks_destination
              [str "a.txt"; str "out"] "a.txt" "out" w_plain
              (accepted_plain Linux) 3 4 (-1)
              (sys_open "a.txt" O_RDONLY 0 w_plain).2
              (sys_open "out" dest_flags DEFAULT_FILE_MODE
                 (sys_open "a.txt" O_RDONLY 0 w_plain).2).2
              (sys_ioctl 4 FICLONE 3
                 (sys_open "out" dest_flags DEFAULT_FILE_MODE
                    (sys_open "a.txt" O_RDONLY 0 w_plain).2).2).2)
    as (e & w' & Hrun & Htrace & Hgone);
    try (by vm_compute); try lia.
  exists e, w'. split; [done |]. split.
  - rewrite Htrace. by vm_compute.
  - apply Hgone. apply (bool_decide_unpack _). by vm_compute.
Defined.

(** C1 as stated fails: [ro/out] is a writable file in a directory the
    process may not modify.  Both opens succeed, the ioctl fails, the
    unlink fails too, and after the failed call [ro/out] is still there,
    emptied. *)
Lemma failed_ioctl_can_leave_destination :
  (sys_open "a.txt" O_RDONLY 0 w_plain).1 = 3 ∧
  (sys_open "ro/out" dest_flags DEFAULT_FILE_MODE
     (sys_open "a.txt" O_RDONLY 0 w_plain).2).1 = 4 ∧
  (sys_ioctl 4 FICLONE 3
     (sys_open "ro/out" dest_flags DEFAULT_FILE_MODE
        (sys_open "a.txt" O_RDONLY 0 w_plain).2).2).1 = -1 ∧
  (linux_ficlone [str "a.txt"; str "ro/out"] w_plain).1
    = Thrown (mk_error Error
                "ioctl FICLONE failed: Operation not supported (errno 95)"
                (Some EOPNOTSUPP)) ∧
  files (linux_ficlone [str "a.txt"; str "ro/out"] w_plain).2 !! "ro/out"
    = Some (file 420 "").
Proof. repeat split; by vm_compute. Qed.

(** C2 as stated fails: a string of 4096 letters, as long as the
    capacity, is not refused; the validator accepts its first 4095 bytes. *)
Lemma overlong_path_is_accepted_truncated :
  String.length (Utf8.encode_all long_path) = PATH_MAX Linux ∧
  get_string_arg (js_string long_path) (PATH_MAX Linux) "dest"
    = inr (fill 4095 "a", 4095%nat).
Proof. split; by vm_compute. Qed.

(** C2 at the argument "a.txt": it is accepted whole. *)
Lemma get_string_arg_capacity_witness :
  get_string_arg (str "a.txt") (PATH_MAX Linux) "src" = inr ("a.txt"%string, 5%nat) ∧
  (0 < 5 < PATH_MAX Linux)%nat ∧
  "a.txt"%string = Utf8.encode_all (Utf8.of_ascii "a.txt").
Proof.
  pose proof (get_string_arg_capacity Linux (str "a.txt") "src") as Hcap.
  assert (get_string_arg (str "a.txt") (PATH_MAX Linux) "src"
          = inr ("a.txt"%string, 5%nat)) as Hrun by by vm_compute.
  rewrite Hrun in Hcap.
  destruct Hcap as (Hlen & _ & (cps & [= <-] & _ & Hwhole & _) & _).
  split; [done |]. split; [done |]. apply Hwhole. vm_compute. lia.
Defined.

(** C4 as stated fails: a build for neither platform answers "unknown",
    not "unsupported". *)
Lemma get_platform_other_is_unknown :
  call_export Other (module Other) "getPlatform" [] w_plain
    = (Returned (napi_create_string_utf8 "unknown"), w_plain) ∧
  napi_create_string_utf8 "unknown" ≠ napi_create_string_utf8 "unsupported".
Proof. split; [by vm_compute | by vm_compute]. Qed.



(** C7 at a call with an empty destination. *)
Lemma clone_validates_before_any_syscall_witness :
  Linux ≠ Other ∧
  refused Linux [str "a.txt"; str ""] ∧
  call_export Linux (module Linux) "clone" [str "a.txt"; str ""] w_plain
    = (Thrown (mk_error Error "dest cannot be empty" None), w_plain).
Proof.
  destruct (clone_validates_before_any_syscall
              Linux [str "a.txt"; str ""] w_plain ltac:(done))
    as (Hiff & Hcall).
  assert (refused Linux [str "a.txt"; str ""]) as Href.
  { apply Hiff. right. by right. }
  split; [done |]. split; [done |].
  destruct (Hcall Href) as (e & Hrun & _ & Hwhich).
  rewrite Hrun. f_equal. f_equal.
  destruct (Hwhich ltac:(simpl; lia)) as [He|He];
    vm_compute in He; by simplify_eq.
Defined.

(** C7 as stated fails: a destination of 4096 bytes, as long as the
    capacity, is not refused.  The call opens the source, creates the
    file named by the first 4095 bytes of the destination, clones into it
    and returns. *)
Lemma overlong_destination_reaches_the_kernel :
  String.length (Utf8.encode_all (Utf8.of_ascii overlong_dest))
    = PATH_MAX Linux ∧
  (call_export Linux (module Linux) "clone"
     [str "a.txt"; str overlong_dest] w_reflink).1 = Returned js_undefined ∧
  trace (call_export Linux (module Linux) "clone"
           [str "a.txt"; str overlong_dest] w_reflink).2
    = [SysOpen "a.txt" O_RDONLY 0;
       SysOpen (dots 2047 +:+ "a") dest_flags DEFAULT_FILE_MODE;
       SysIoctl 4 FICLONE 3; SysClose 3; SysClose 4] ∧
  files w_reflink !! (dots 2047 +:+ "a") = None ∧
  files (call_export Linux (module Linux) "clone"
           [str "a.txt"; str overlong_dest] w_reflink).2
    !! (dots 2047 +:+ "a") = Some (file 420 "hello").
Proof. repeat split; by vm_compute. Qed.

(** C8 on three calls in a world where closing [out] reports EIO: the
    source is missing; the destination cannot be created; the ioctl is
    not supported.  In the third call errno ends as EIO, and the error
    still carries the code of the ioctl. *)
Lemma linux_ficlone_step_order_witness :
  (linux_ficlone [str "nope"; str "out"] w_flaky).1
    = Thrown (mk_error Error
                "open source failed: No such file or directory (errno 2)"
                (Some ENOENT)) ∧
  (linux_ficlone [str "a.txt"; str "ro/new"] w_flaky).1
    = Thrown (mk_error Error
                "open dest failed: Permission denied (errno 13)"
                (Some EACCES)) ∧
  (linux_ficlone [str "a.txt"; str "out"] w_flaky).1
    = Thrown (mk_error Error
                "ioctl FICLONE failed: Operation not supported (errno 95)"
                (Some EOPNOTSUPP)) ∧
  errno (linux_ficlone [str "a.txt"; str "out"] w_flaky).2 = EIO.
Proof.
  split; [| split; [| split; [| by vm_compute]]].
  - destruct (linux_ficlone_step_order
                [str "nope"; str "out"] "nope" "out" w_flaky
                ltac:(exists 4%nat, 3%nat; by vm_compute)
                (-1) (sys_open "out" dest_flags DEFAULT_FILE_MODE
                        (sys_open "nope" O_RDONLY 0 w_flaky).2).1
                (-1)
                (sys_open "nope" O_RDONLY 0 w_flaky).2
                (sys_open "out" dest_flags DEFAULT_FILE_MODE
                   (sys_open "nope" O_RDONLY 0 w_flaky).2).2
                (sys_ioctl
                   (sys_open "out" dest_flags DEFAULT_FILE_MODE
                      (sys_open "nope" O_RDONLY 0 w_flaky).2).1
                   FICLONE (-1)
                   (sys_open "out" dest_flags DEFAULT_FILE_MODE
                      (sys_open "nope" O_RDONLY 0 w_flaky).2).2).2
                ltac:(by vm_compute) ltac:(by vm_compute) ltac:(by vm_compute))
      as (_ & _ & _ & Hsource & _).
    destruct (Hsource ltac:(lia)) as (-> & _). by vm_compute.
  - destruct (linux_ficlone_step_order
                [str "a.txt"; str "ro/new"] "a.txt" "ro/new" w_flaky
                ltac:(exists 5%nat, 6%nat; by vm_compute)
                3 (-1) (-1)
                (sys_open "a.txt" O_RDONLY 0 w_flaky).2
                (sys_open "ro/new" dest_flags DEFAULT_FILE_MODE
                   (sys_open "a.txt" O_RDONLY 0 w_flaky).2).2
                (sys_ioctl (-1) FICLONE 3
                   (sys_open "ro/new" dest_flags DEFAULT_FILE_MODE
                      (sys_open "a.txt" O_RDONLY 0 w_flaky).2).2).2
                ltac:(by vm_compute) ltac:(by vm_compute) ltac:(by vm_compute))
      as (_ & _ & _ & _ & Hdest & _).
    destruct (Hdest ltac:(lia) ltac:(lia)) as (w' & -> & _ & _ & _ & Hs).
    unfold throw_errno_error. rewrite Hs. by vm_compute.
  - destruct (linux_ficlone_step_order
                [str "a.txt"; str "out"] "a.txt" "out" w_flaky
                ltac:(exists 5%nat, 3%nat; by vm_compute)
                3 4 (-1)
                (sys_open "a.txt" O_RDONLY 0 w_flaky).2
                (sys_open "out" dest_flags DEFAULT_FILE_MODE
                   (sys_open "a.txt" O_RDONLY 0 w_flaky).2).2
                (sys_ioctl 4 FICLONE 3
                   (sys_open "out" dest_flags DEFAULT_FILE_MODE
                      (sys_open "a.txt" O_RDONLY 0 w_flaky).2).2).2
                ltac:(by vm_compute) ltac:(by vm_compute) ltac:(by vm_compute))
      as (_ & _ & _ & _ & _ & Hioctl).
    destruct (Hioctl ltac:(lia) ltac:(lia) ltac:(lia)) as (w' & -> & _ & Hs).
    unfold throw_errno_error. rewrite Hs. by vm_compute.
Defined.



End Concrete.

(** * Further properties of the addon *)

(** ** More of the kernel model *)

Section Kernel_frames.

(** A successful FICLONE gives the destination the bytes of the source. *)
Lemma sys_ioctl_ok (fd arg : Z) (w w' : World) :
  sys_ioctl fd FICLONE arg w = (0, w') →
  ∃ d s di si,
    fds w !! fd = Some d ∧ fds w !! arg = Some s ∧
    files w !! fd_path d = Some di ∧ files w !! fd_path s = Some si ∧
    i_type si = Regular ∧
    files w' = <[fd_path d := mk_inode Regular (i_mode di) (i_data si)
                                       (i_close_error di)]> (files w).
Proof.
  unfold_sys. intros Hrun. split_sys.
  eexists _, _, _, _. by repeat split.
Qed.

(** FICLONE from a directory fails. *)
Lemma sys_ioctl_directory (fd arg : Z) (w w' : World) (r : Z)
    (s : fd_entry) (si : inode) :
  sys_ioctl fd FICLONE arg w = (r, w') →
  fds w !! arg = Some s → files w !! fd_path s = Some si →
  i_type si = Directory → r = -1.
Proof.
  unfold_sys. intros Hrun Hs Hsi Hdir. split_sys; congruence.
Qed.

Lemma sys_clonefile_result (src dst : string) (flags : Z) (w w' : World) (r : Z) :
  sys_clonefile src dst flags w = (r, w') → r = 0 ∨ r = -1.
Proof. unfold_sys. intros Hrun. split_sys; auto. Qed.

End Kernel_frames.

(** ** The Linux strategy: success and special paths *)

Section Linux_clone_more.

Context (info : list napi_value) (src dest : string) (w : World).
Hypothesis Hvalid : accepted Linux info src dest.

Context (src_fd dest_fd result : Z) (w1 w2 w3 : World).
Hypothesis Hopen_src :
  sys_open (Bytes.c_str src) O_RDONLY 0 w = (src_fd, w1).
Hypothesis Hopen_dest :
  sys_open (Bytes.c_str dest) dest_flags DEFAULT_FILE_MODE w1 = (dest_fd, w2).
Hypothesis Hioctl :
  sys_ioctl dest_fd FICLONE src_fd w2 = (result, w3).

(** The two descriptors once both opens succeeded. *)
Lemma descriptors_after_opens :
  0 ≤ src_fd → 0 ≤ dest_fd →
  fds w2 !! src_fd = Some (mk_fd (Bytes.c_str src) O_RDONLY) ∧
  fds w2 !! dest_fd = Some (mk_fd (Bytes.c_str dest) dest_flags) ∧
  src_fd ≠ dest_fd.
Proof.
  intros Hpos1 Hpos2.
  destruct (sys_open_spec _ _ _ _ _ _ Hopen_src)
    as (_ & _ & _ & [(? & _)|(_ & Hfree1 & Hfds1 & _)]); [lia |].
  destruct (sys_open_spec _ _ _ _ _ _ Hopen_dest)
    as (_ & _ & _ & [(? & _)|(_ & Hfree2 & Hfds2 & _)]); [lia |].
  rewrite Hfds1 in Hfree2. apply lookup_insert_None in Hfree2 as [_ Hne].
  rewrite Hfds2, Hfds1. split; [| split; [| done]].
  - rewrite lookup_insert_ne by done. apply lookup_insert_eq.
  - apply lookup_insert_eq.
Qed.

(** The files seen by the ioctl: the destination is an empty regular file
    and every other path is as it was before the call. *)
Lemma files_after_opens (q : string) :
  0 ≤ dest_fd → q ≠ Bytes.c_str dest → files w2 !! q = files w !! q.
Proof.
  intros Hpos2 Hq.
  destruct (sys_open_dest _ _ _ _ Hopen_dest Hpos2) as [_ Hframe].
  rewrite (Hframe q Hq). by rewrite (sys_open_rdonly _ _ _ _ _ Hopen_src).
Qed.

(** X1: when both opens succeed and the ioctl returns 0, the call returns
    [undefined] after exactly five system calls, the last two closing
    the descriptors; [unlink] is not called.  The descriptor table is the
    one before the call, the files are as the ioctl left them, and the
    destination path names a regular file. *)
Theorem successful_clone :
  0 ≤ src_fd → 0 ≤ dest_fd → result = 0 →
  ∃ w' i,
    linux_ficlone info w = (Returned js_undefined, w') ∧
    trace w' = trace w ++
      [SysOpen (Bytes.c_str src) O_RDONLY 0;
       SysOpen (Bytes.c_str dest) dest_flags DEFAULT_FILE_MODE;
       SysIoctl dest_fd FICLONE src_fd; SysClose src_fd; SysClose dest_fd] ∧
    fds w' = fds w ∧
    files w' = files w3 ∧
    files w' !! Bytes.c_str dest = Some i ∧ i_type i = Regular.
Proof.
  intros Hpos1 Hpos2 ->.
  destruct (after_closes _ _ _ _ _ _ _ _ _ Hopen_src Hopen_dest Hioctl _
              Hpos1 Hpos2 eq_refl) as (Ht5 & Hfds5 & Hf5 & _).
  destruct descriptors_after_opens as (Hs & Hd & Hne); [done.. |].
  destruct (sys_ioctl_ok _ _ _ _ Hioctl)
    as (d & s & di & si & Hd' & Hs' & Hdi & Hsi & Hreg & Hf3).
  rewrite Hd in Hd'. rewrite Hs in Hs'. simplify_eq. simpl in *.
  eexists _, _. split.
  { by rewrite (after_ioctl _ _ _ _ Hvalid _ _ _ _ _ _
                  Hopen_src Hopen_dest Hioctl Hpos1 Hpos2). }
  cbn zeta. split; [done |]. split; [done |]. split; [done |].
  rewrite Hf5, Hf3. split; [apply lookup_insert_eq | done].
Qed.

(** X14: the call does not check that the two paths differ.  When source
    and destination are the same path and both opens succeed, opening the
    destination empties the file before the ioctl runs, so after the call
    the file is gone or empty, whatever the ioctl answered. *)
Theorem clone_onto_itself_loses_the_file :
  Bytes.c_str src = Bytes.c_str dest →
  0 ≤ src_fd → 0 ≤ dest_fd →
  files (linux_ficlone info w).2 !! Bytes.c_str dest = None ∨
  ∃ i, files (linux_ficlone info w).2 !! Bytes.c_str dest = Some i ∧
       i_data i = ""%string.
Proof.
  intros Hsame Hpos1 Hpos2.
  destruct (sys_open_dest _ _ _ _ Hopen_dest Hpos2) as [(i & Hi & _ & Hdata) _].
  destruct (Z.eq_dec result 0) as [->|Hres].
  - destruct (after_closes _ _ _ _ _ _ _ _ _ Hopen_src Hopen_dest Hioctl _
                Hpos1 Hpos2 eq_refl) as (_ & _ & Hf5 & _).
    destruct descriptors_after_opens as (Hs & Hd & _); [done.. |].
    destruct (sys_ioctl_ok _ _ _ _ Hioctl)
      as (d & s & di & si & Hd' & Hs' & Hdi & Hsi & _ & Hf3).
    rewrite Hd in Hd'. rewrite Hs in Hs'. simplify_eq. simpl in *.
    rewrite Hsame, Hi in Hsi. simplify_eq.
    rewrite (after_ioctl _ _ _ _ Hvalid _ _ _ _ _ _
               Hopen_src Hopen_dest Hioctl Hpos1 Hpos2).
    cbn. right. eexists. rewrite Hf5, Hf3. split; [apply lookup_insert_eq |].
    done.
  - destruct (ioctl_failure _ _ _ _ Hvalid _ _ _ _ _ _
                Hopen_src Hopen_dest Hioctl Hpos1 Hpos2 Hres)
      as (w6 & -> & _ & _ & _ & Hgone & Hkeep).
    cbn [snd throw_errno_error].
    destruct (decide (Bytes.c_str dest ∈ frozen w)) as [Hin|Hout].
    + right. exists i. by rewrite (Hkeep Hin).
    + left. by apply Hgone.
Qed.

(** Opening the destination on a directory fails. *)
Lemma sys_open_dest_directory (p : string) (v v' : World) (r : Z) (d : inode) :
  sys_open p dest_flags DEFAULT_FILE_MODE v = (r, v') →
  files v !! p = Some d → i_type d = Directory → r = -1.
Proof.
  unfold sys_open. intros Hrun Hd Hdir. revert Hrun.
  destruct (free_fd (log (SysOpen p dest_flags DEFAULT_FILE_MODE) v)) as [fd|];
    [| unfold_sys; congruence].
  cbn [files log]. rewrite Hd, Hdir.
  change (wants_write dest_flags) with true. cbn [orb].
  unfold_sys. congruence.
Qed.

(** X15: a directory is never cloned by the Linux strategy.  When the
    source path names a directory the call throws an error that carries
    an OS error code, whatever the destination is. *)
Theorem linux_clone_of_directory_fails (d : inode) :
  files w !! Bytes.c_str src = Some d → i_type d = Directory →
  ∃ e w', linux_ficlone info w = (Thrown e, w') ∧ is_Some (err_errno e).
Proof.
  intros Hd Hdir.
  pose proof (sys_open_rdonly _ _ _ _ _ Hopen_src) as Hf1.
  destruct (sys_open_spec _ _ _ _ _ _ Hopen_src)
    as (_ & _ & _ & [(-> & _)|(Hpos1 & _)]).
  { rewrite (open_source_failure _ _ _ _ Hvalid _ _ Hopen_src) by lia.
    by eexists _, _. }
  destruct (sys_open_spec _ _ _ _ _ _ Hopen_dest)
    as (_ & _ & _ & [(-> & _)|(Hpos2 & _)]).
  { rewrite (open_dest_failure _ _ _ _ Hvalid _ _ _ _ Hopen_src Hopen_dest)
      by lia.
    by eexists _, _. }
  assert (Bytes.c_str src ≠ Bytes.c_str dest) as Hdiff.
  { intros Hsame. rewrite Hsame, <- Hf1 in Hd.
    pose proof (sys_open_dest_directory _ _ _ _ _ Hopen_dest Hd Hdir). lia. }
  destruct descriptors_after_opens as (Hs & _); [done.. |].
  assert (result = -1) as ->.
  { eapply (sys_ioctl_directory _ _ _ _ _ _ d Hioctl Hs); [| done].
    simpl. by rewrite files_after_opens. }
  destruct (ioctl_failure _ _ _ _ Hvalid _ _ _ _ _ _
              Hopen_src Hopen_dest Hioctl Hpos1 Hpos2 ltac:(lia))
    as (w6 & -> & _).
  by eexists _, _.
Qed.

(** The system calls of a call whose arguments were accepted. *)
Lemma syscalls_of_accepted_call :
  (linux_ficlone info w).1 = Returned js_undefined ∧
  trace (linux_ficlone info w).2 = trace w ++
    [SysOpen (Bytes.c_str src) O_RDONLY 0;
     SysOpen (Bytes.c_str dest) dest_flags DEFAULT_FILE_MODE;
     SysIoctl dest_fd FICLONE src_fd; SysClose src_fd; SysClose dest_fd]
  ∨
  ∃ e code,
    (linux_ficlone info w).1 = Thrown e ∧ err_errno e = Some code ∧
    (trace (linux_ficlone info w).2 = trace w ++
       [SysOpen (Bytes.c_str src) O_RDONLY 0] ∨
     trace (linux_ficlone info w).2 = trace w ++
       [SysOpen (Bytes.c_str src) O_RDONLY 0;
        SysOpen (Bytes.c_str dest) dest_flags DEFAULT_FILE_MODE;
        SysClose src_fd] ∨
     trace (linux_ficlone info w).2 = trace w ++
       [SysOpen (Bytes.c_str src) O_RDONLY 0;
        SysOpen (Bytes.c_str dest) dest_flags DEFAULT_FILE_MODE;
        SysIoctl dest_fd FICLONE src_fd; SysClose src_fd; SysClose dest_fd;
        SysUnlink (Bytes.c_str dest)]).
Proof.
  destruct (sys_open_spec _ _ _ _ _ _ Hopen_src)
    as (Ht1 & _ & _ & [(Hneg & _)|(Hpos1 & _)]).
  { rewrite (open_source_failure _ _ _ _ Hvalid _ _ Hopen_src) by lia.
    right. eexists _, _. split; [done |]. split; [done |]. by left. }
  destruct (sys_open_spec _ _ _ _ _ _ Hopen_dest)
    as (Ht2 & _ & _ & [(Hneg & _)|(Hpos2 & _)]).
  { rewrite (open_dest_failure _ _ _ _ Hvalid _ _ _ _ Hopen_src Hopen_dest)
      by lia.
    destruct (sys_close src_fd w2) as [r w'] eqn:Hc.
    destruct (sys_close_spec _ _ _ _ Hc) as (Ht & _).
    right. eexists _, _. split; [done |]. split; [done |]. right. left.
    cbn [snd throw_errno_error]. rewrite Ht, Ht2, Ht1.
    by rewrite <- !app_assoc. }
  destruct (Z.eq_dec result 0) as [->|Hres].
  - left.
    destruct (after_closes _ _ _ _ _ _ _ _ _ Hopen_src Hopen_dest Hioctl _
                Hpos1 Hpos2 eq_refl) as (Ht5 & _).
    rewrite (after_ioctl _ _ _ _ Hvalid _ _ _ _ _ _
               Hopen_src Hopen_dest Hioctl Hpos1 Hpos2).
    by split.
  - destruct (ioctl_failure _ _ _ _ Hvalid _ _ _ _ _ _
                Hopen_src Hopen_dest Hioctl Hpos1 Hpos2 Hres)
      as (w' & -> & Ht & _).
    right. eexists _, _. split; [done |]. split; [done |]. right. by right.
Qed.

End Linux_clone_more.

(** ** The Linux strategy on every call *)

Section Linux_every_call.



(** X9: the emptiness check of the validator counts bytes, it does not
    look at the C string.  A source that starts with a NUL character is
    accepted, and the path the kernel is asked to open is the empty one. *)
Theorem nul_leading_source_opens_empty_path
    (info : list napi_value) (rest : list N) (dest : string) (dest_len : nat)
    (w : World) :
  nth 0 info js_undefined = js_string (0%N :: rest) →
  get_string_arg (nth 1 info js_undefined) (PATH_MAX Linux) "dest"
    = inr (dest, dest_len) →
  ∃ src calls,
    accepted Linux info src dest ∧ src ≠ ""%string ∧
    Bytes.c_str src = ""%string ∧
    trace (linux_ficlone info w).2 = trace w ++ SysOpen "" O_RDONLY 0 :: calls.
Proof.
  intros Harg Hdest.
  set (src := Utf8.write (0%N :: rest) (PATH_MAX Linux - 1)).
  assert (get_string_arg (nth 0 info js_undefined) (PATH_MAX Linux) "src"
          = inr (src, String.length src)) as Hsrc.
  { rewrite Harg, get_string_arg_string. cbn zeta. fold src.
    pose proof (write_nonempty 0 rest (PATH_MAX Linux - 1) ltac:(simpl; lia)).
    fold src in H. by destruct (Nat.eqb_spec (String.length src) 0); [lia |]. }
  assert (∃ tail, src = String Ascii.zero tail) as [tail Htail].
  { unfold src. cbn [Utf8.write].
    change (Utf8.encode 0) with (String Ascii.zero "").
    change (String.length (String Ascii.zero "") <=? PATH_MAX Linux - 1)%nat
      with true.
    by eexists. }
  assert (accepted Linux info src dest) as Hvalid by by eexists _, _.
  assert (Bytes.c_str src = ""%string) as Hc by by rewrite Htail.
  destruct (sys_open (Bytes.c_str src) O_RDONLY 0 w) as [src_fd w1] eqn:H1.
  destruct (sys_open (Bytes.c_str dest) dest_flags DEFAULT_FILE_MODE w1)
    as [dest_fd w2] eqn:H2.
  destruct (sys_ioctl dest_fd FICLONE src_fd w2) as [result w3] eqn:H3.
  assert (src ≠ ""%string) as Hne by by rewrite Htail.
  exists src.
  destruct (syscalls_of_accepted_call _ _ _ _ Hvalid _ _ _ _ _ _ H1 H2 H3)
    as [(_ & Ht)|(e & code & _ & _ & [Ht|[Ht|Ht]])];
    rewrite Hc in Ht; eexists; (split; [done |]); (split; [done |]);
    (split; [done |]); exact Ht.
Qed.

End Linux_every_call.

(** ** The macOS strategy on every call *)

Section Darwin_every_call.

(** X4: [darwin_clonefile] never opens a descriptor and makes at most
    one system call.  Either an argument is refused and nothing happens,
    or the one call is [clonefile] on the two paths with flags 0; then
    the call returns [undefined], or it throws the error labelled
    "clonefile" with the errno of that call and no file has changed. *)
Theorem darwin_clonefile_single_call (info : list napi_value) (w : World) :
  fds (darwin_clonefile info w).2 = fds w ∧
  ((∃ e, darwin_clonefile info w = (Thrown e, w) ∧ err_errno e = None) ∨
   ∃ src dest,
     accepted Darwin info src dest ∧
     trace (darwin_clonefile info w).2
       = trace w ++ [SysClonefile (Bytes.c_str src) (Bytes.c_str dest) 0] ∧
     ((darwin_clonefile info w).1 = Returned js_undefined ∨
      darwin_clonefile info w
        = throw_errno_error "clonefile"
            (errno (darwin_clonefile info w).2) (darwin_clonefile info w).2 ∧
      files (darwin_clonefile info w).2 = files w)).
Proof.
  destruct (accepted_or_refused Darwin info) as [(src & dest & Hvalid)|Href].
  2: { destruct (darwin_clonefile_refused info w Href) as (e & Hrun & Hno & _).
       rewrite Hrun. split; [done |]. left. by exists e. }
  rewrite (darwin_clonefile_valid _ _ _ w Hvalid).
  destruct (sys_clonefile (Bytes.c_str src) (Bytes.c_str dest) 0 w)
    as [r w'] eqn:Hc.
  destruct (sys_clonefile_spec _ _ _ _ _ _ Hc) as (Ht & Hfds & _ & Hfail & _).
  destruct (sys_clonefile_result _ _ _ _ _ _ Hc) as [-> | ->]; cbn.
  - split; [done |]. right. exists src, dest. split; [done |].
    split; [done |]. by left.
  - split; [done |]. right. exists src, dest. split; [done |].
    split; [done |]. right. split; [done |]. by apply Hfail.
Qed.

End Darwin_every_call.

(** ** Arguments *)

Section Arguments.

(** X5: with fewer than two arguments both strategies throw their arity
    error, before looking at the type of any argument and before any
    system call. *)
Theorem clone_needs_two_arguments (info : list napi_value) (w : World) :
  (List.length info < 2)%nat →
  linux_ficlone info w
    = (Thrown (mk_error Error "ficlone requires 2 arguments: src, dest" None), w) ∧
  darwin_clonefile info w
    = (Thrown (mk_error Error "clonefile requires 2 arguments: src, dest" None), w).
Proof.
  intros Hlen. destruct info as [|a [|b rest]]; simpl in Hlen; try lia; done.
Qed.

(** X6: arguments after the second are ignored by both strategies. *)
Theorem extra_arguments_are_ignored
    (a b : napi_value) (rest : list napi_value) (w : World) :
  linux_ficlone (a :: b :: rest) w = linux_ficlone [a; b] w ∧
  darwin_clonefile (a :: b :: rest) w = darwin_clonefile [a; b] w.
Proof. done. Qed.

(** X7: what the validator refuses, and how.  With a buffer of at least
    five bytes and a name of at most 110 bytes, a value that is not a
    string is refused with the TypeError "<name> must be a string", the
    empty string with the Error "<name> cannot be empty", and nothing
    else is refused. *)
Theorem get_string_arg_refusals (v : napi_value) (n : nat) (name : string) :
  (5 ≤ n)%nat → (String.length name ≤ 110)%nat →
  ((napi_typeof v).2 ≠ napi_string →
     get_string_arg v n name
       = inl (mk_error TypeError (name +:+ " must be a string") None)) ∧
  (v = js_string [] →
     get_string_arg v n name
       = inl (mk_error Error (name +:+ " cannot be empty") None)) ∧
  (∀ e, get_string_arg v n name = inl e →
        (napi_typeof v).2 ≠ napi_string ∨ v = js_string []).
Proof.
  intros Hn Hname. split; [| split].
  - intros Hty. rewrite get_string_arg_not_string by done.
    rewrite snprintf_fits; [done |].
    rewrite str_length_app. unfold ARG_ERROR_MSG_SIZE. simpl. lia.
  - intros ->. rewrite get_string_arg_string. simpl.
    rewrite snprintf_fits; [done |].
    rewrite str_length_app. unfold ARG_ERROR_MSG_SIZE. simpl. lia.
  - intros e Hrun. destruct v as [| | | |cps| | | | |]; try (by left).
    right. rewrite get_string_arg_string in Hrun. cbn zeta in Hrun.
    destruct cps as [|c cps]; [done |].
    pose proof (write_nonempty c cps (n - 1) ltac:(lia)) as Hlen.
    by destruct (Nat.eqb_spec (String.length (Utf8.write (c :: cps) (n - 1))) 0);
      [lia |].
Qed.

Lemma linux_ficlone_validation_order (info : list napi_value) (w : World) :
  (2 ≤ List.length info)%nat →
  match get_string_arg (nth 0 info js_undefined) (PATH_MAX Linux) "src" with
  | inl e => linux_ficlone info w = (Thrown e, w)
  | inr _ =>
      match get_string_arg (nth 1 info js_undefined) (PATH_MAX Linux) "dest" with
      | inl e => linux_ficlone info w = (Thrown e, w)
      | inr _ => True
      end
  end.
Proof.
  intros Hlen. unfold linux_ficlone.
  pose proof (argv_nth info 0 ltac:(lia)) as H0.
  pose proof (argv_nth info 1 ltac:(lia)) as H1.
  destruct (napi_get_cb_info info 2) as [argc argv] eqn:Hinfo.
  assert (argc = List.length info) as ->
    by (unfold napi_get_cb_info in Hinfo; congruence).
  simpl in H0, H1. rewrite H0, H1.
  destruct (Nat.ltb_spec (List.length info) 2); [lia |].
  destruct (get_string_arg (nth 0 info js_undefined) (PATH_MAX Linux) "src")
    as [e0|[src sl]]; [done |].
  by destruct (get_string_arg (nth 1 info js_undefined) (PATH_MAX Linux) "dest")
    as [e1|[dest dl]].
Qed.

Lemma darwin_clonefile_validation_order (info : list napi_value) (w : World) :
  (2 ≤ List.length info)%nat →
  match get_string_arg (nth 0 info js_undefined) (PATH_MAX Darwin) "src" with
  | inl e => darwin_clonefile info w = (Thrown e, w)
  | inr _ =>
      match get_string_arg (nth 1 info js_undefined) (PATH_MAX Darwin) "dest" with
      | inl e => darwin_clonefile info w = (Thrown e, w)
      | inr _ => True
      end
  end.
Proof.
  intros Hlen. unfold darwin_clonefile.
  pose proof (argv_nth info 0 ltac:(lia)) as H0.
  pose proof (argv_nth info 1 ltac:(lia)) as H1.
  destruct (napi_get_cb_info info 2) as [argc argv] eqn:Hinfo.
  assert (argc = List.length info) as ->
    by (unfold napi_get_cb_info in Hinfo; congruence).
  simpl in H0, H1. rewrite H0, H1.
  destruct (Nat.ltb_spec (List.length info) 2); [lia |].
  destruct (get_string_arg (nth 0 info js_undefined) (PATH_MAX Darwin) "src")
    as [e0|[src sl]]; [done |].
  by destruct (get_string_arg (nth 1 info js_undefined) (PATH_MAX Darwin) "dest")
    as [e1|[dest dl]].
Qed.

(** X8: the source is validated before the destination.  With two
    arguments, a refused source is the error of the call even when the
    destination would be refused too; the error of a refused destination
    is thrown only when the source was accepted. *)
Theorem source_is_validated_first
    (t : target) (info : list napi_value) (w : World) :
  t ≠ Other → (2 ≤ List.length info)%nat →
  match get_string_arg (nth 0 info js_undefined) (PATH_MAX t) "src" with
  | inl e => call_export t (module t) "clone" info w = (Thrown e, w)
  | inr _ =>
      match get_string_arg (nth 1 info js_undefined) (PATH_MAX t) "dest" with
      | inl e => call_export t (module t) "clone" info w = (Thrown e, w)
      | inr _ => True
      end
  end.
Proof.
  intros Ht Hlen. unfold call_export. rewrite module_clone.
  destruct t; [| | done]; cbn [invoke].
  - by apply darwin_clonefile_validation_order.
  - by apply linux_ficlone_validation_order.
Qed.

End Arguments.

(** ** The label of a translated error *)

Section Label.

(** X10: the label is never lost to the cut of the message buffer.  When
    the label and " failed: " fit the buffer, as they do for the four
    labels of the addon, the message starts with "<operation> failed: "
    however long the description of the error code is. *)
Theorem errno_message_keeps_label (operation : string) (err : Z) (w : World) :
  (String.length operation + 9 < ERROR_MSG_BUFFER_SIZE)%nat →
  ∃ e,
    throw_errno_error operation err w = (Thrown e, w) ∧
    Bytes.starts_with (err_message e) (operation +:+ " failed: ").
Proof.
  intros Hfits. eexists. split; [reflexivity |]. cbn [err_message].
  unfold Bytes.snprintf, errno_text.
  rewrite <- (str_app_assoc operation " failed: ").
  rewrite take_app_ge.
  - by eexists.
  - rewrite str_length_app. unfold ERROR_MSG_BUFFER_SIZE in *. simpl. lia.
Qed.

End Label.

(** ** Module registration *)

Section Registration.

(** X11: what [Init] does to an [exports] object that already has
    properties.  On every build [getPlatform] is set to the platform
    function.  On darwin and linux builds [clone], [isAvailable] and
    [supportsDirectory] are set to the functions of that platform,
    replacing what was there.  On other builds only [isAvailable] is set,
    and [clone] and [supportsDirectory] stay as they were.  Properties
    with other names are never touched. *)
Theorem Init_exports (t : target) (exports : gmap string napi_value) :
  Init t exports !! "getPlatform" = Some (js_function cb_get_platform) ∧
  (∀ name,
     name ≠ "getPlatform"%string → name ≠ "clone"%string →
     name ≠ "isAvailable"%string → name ≠ "supportsDirectory"%string →
     Init t exports !! name = exports !! name) ∧
  match t with
  | Darwin =>
      Init t exports !! "clone" = Some (js_function cb_darwin_clonefile) ∧
      Init t exports !! "isAvailable"
        = Some (js_function cb_darwin_is_available) ∧
      Init t exports !! "supportsDirectory"
        = Some (js_function cb_darwin_supports_directory)
  | Linux =>
      Init t exports !! "clone" = Some (js_function cb_linux_ficlone) ∧
      Init t exports !! "isAvailable"
        = Some (js_function cb_linux_is_available) ∧
      Init t exports !! "supportsDirectory"
        = Some (js_function cb_linux_supports_directory)
  | Other =>
      Init t exports !! "clone" = exports !! "clone" ∧
      Init t exports !! "isAvailable" = Some (js_boolean false) ∧
      Init t exports !! "supportsDirectory" = exports !! "supportsDirectory"
  end.
Proof.
  split; [| split].
  - destruct t; unfold Init; by simplify_map_eq.
  - intros name H1 H2 H3 H4. destruct t; unfold Init; by simplify_map_eq.
  - destruct t; unfold Init; repeat split; by simplify_map_eq.
Qed.

(** X12: availability is a sound guide for the caller.  On every build
    and whatever [exports] held before, if the call [isAvailable()]
    returns true then [clone] is a function. *)
Theorem available_implies_clone_callable
    (t : target) (exports : gmap string napi_value)
    (info : list napi_value) (w w' : World) :
  call_export t (Init t exports) "isAvailable" info w
    = (Returned (js_boolean true), w') →
  ∃ cb, Init t exports !! "clone" = Some (js_function cb).
Proof.
  unfold call_export. destruct t; unfold Init; simplify_map_eq;
    intros Hrun; by eauto.
Qed.

End Registration.

(** ** Repeating a clone on macOS *)

Section Darwin_repeat.

(** After a successful [clonefile] the destination exists. *)
Lemma sys_clonefile_ok (src dst : string) (flags : Z) (w w' : World) :
  sys_clonefile src dst flags w = (0, w') → is_Some (files w' !! dst).
Proof.
  unfold_sys. intros Hrun. split_sys.
  match goal with
  | |- is_Some (map_fold ?f ?b ?m !! dst) =>
      apply (map_fold_weak_ind (λ r _, is_Some (r !! dst)) f b)
  end.
  - rewrite lookup_insert_eq. by eexists.
  - intros p node m r _ Hr. destruct (below src p); [| done].
    apply lookup_insert_is_Some'. by right.
Qed.

(** X16: on macOS a clone cannot be repeated.  After a call that
    returned, the same call made again throws an error with an OS error
    code and changes no file, because the destination now exists. *)
Theorem repeated_darwin_clone_fails
    (info : list napi_value) (w w1 : World) (v : napi_value) :
  darwin_clonefile info w = (Returned v, w1) →
  ∃ e w2,
    darwin_clonefile info w1 = (Thrown e, w2) ∧
    is_Some (err_errno e) ∧ files w2 = files w1.
Proof.
  intros Hfirst.
  destruct (accepted_or_refused Darwin info) as [(src & dest & Hvalid)|Href].
  2: { destruct (darwin_clonefile_refused info w Href) as (e & Hrun & _).
       congruence. }
  rewrite (darwin_clonefile_valid _ _ _ w Hvalid) in Hfirst.
  destruct (sys_clonefile (Bytes.c_str src) (Bytes.c_str dest) 0 w)
    as [r w'] eqn:Hc.
  destruct (sys_clonefile_result _ _ _ _ _ _ Hc) as [-> | ->];
    [| discriminate].
  cbn in Hfirst. simplify_eq.
  pose proof (sys_clonefile_ok _ _ _ _ _ Hc) as Hexists.
  rewrite (darwin_clonefile_valid _ _ _ w1 Hvalid).
  destruct (sys_clonefile (Bytes.c_str src) (Bytes.c_str dest) 0 w1)
    as [r w2] eqn:Hc2.
  destruct (sys_clonefile_spec _ _ _ _ _ _ Hc2) as (_ & _ & _ & _ & Hfail).
  destruct (Hfail Hexists) as [-> Hsame].
  eexists _, w2. by repeat split.
Qed.

End Darwin_repeat.

(** ** The further properties at concrete inputs *)

Section Concrete_more.

Import Samples.

(** X1 at a clone of [a.txt] onto the new path [new] on a file system
    that clones extents. *)
Lemma successful_clone_witness :
  accepted Linux [str "a.txt"; str "new"] "a.txt" "new" ∧
  ∃ w' i,
    linux_ficlone [str "a.txt"; str "new"] w_reflink
      = (Returned js_undefined, w') ∧
    fds w' = fds w_reflink ∧
    files w' !! "new" = Some i ∧ i_type i = Regular.
Proof.
  assert (accepted Linux [str "a.txt"; str "new"] "a.txt" "new") as Hvalid
    by (exists 5%nat, 3%nat; by vm_compute).
  split; [done |].
  destruct (successful_clone
              [str "a.txt"; str "new"] "a.txt" "new" w_reflink Hvalid 3 4 0
              (sys_open "a.txt" O_RDONLY 0 w_reflink).2
              (sys_open "new" dest_flags DEFAULT_FILE_MODE
                 (sys_open "a.txt" O_RDONLY 0 w_reflink).2).2
              (sys_ioctl 4 FICLONE 3
                 (sys_open "new" dest_flags DEFAULT_FILE_MODE
                    (sys_open "a.txt" O_RDONLY 0 w_reflink).2).2).2
              ltac:(by vm_compute) ltac:(by vm_compute) ltac:(by vm_compute)
              ltac:(lia) ltac:(lia) eq_refl)
    as (w' & i & Hrun & _ & Hfds & _ & Hi & Hreg).
  by exists w', i.
Defined.


(** X5 at a call with the one argument 3. *)
Lemma clone_needs_two_arguments_witness :
  (List.length [js_number 3] < 2)%nat ∧
  linux_ficlone [js_number 3] w_plain
    = (Thrown (mk_error Error "ficlone requires 2 arguments: src, dest" None),
       w_plain).
Proof.
  split; [simpl; lia |].
  apply (clone_needs_two_arguments [js_number 3] w_plain). simpl. lia.
Defined.

(** X7 at the number 3 given as the source. *)
Lemma get_string_arg_refusals_witness :
  get_string_arg (js_number 3) (PATH_MAX Linux) "src"
    = inl (mk_error TypeError "src must be a string" None).
Proof.
  destruct (get_string_arg_refusals (js_number 3) (PATH_MAX Linux) "src")
    as (Htype & _); [simpl; lia.. |].
  by rewrite Htype.
Defined.

(** X8 at a call whose two arguments are both refused: the error names
    the source. *)
Lemma source_is_validated_first_witness :
  call_export Linux (module Linux) "clone" [js_number 1; str ""] w_plain
    = (Thrown (mk_error TypeError "src must be a string" None), w_plain).
Proof.
  pose proof (source_is_validated_first Linux [js_number 1; str ""] w_plain
                ltac:(done) ltac:(simpl; lia)) as Horder.
  assert (get_string_arg (nth 0 [js_number 1; str ""] js_undefined)
            (PATH_MAX Linux) "src"
          = inl (mk_error TypeError "src must be a string" None)) as Hsrc
    by by vm_compute.
  by rewrite Hsrc in Horder.
Defined.

(** X9 at the source "\000a". *)
Lemma nul_leading_source_opens_empty_path_witness :
  ∃ src calls,
    accepted Linux [js_string [0; 97]%N; str "out"] src "out" ∧
    src ≠ ""%string ∧ Bytes.c_str src = ""%string ∧
    trace (linux_ficlone [js_string [0; 97]%N; str "out"] w_plain).2
      = trace w_plain ++ SysOpen "" O_RDONLY 0 :: calls.
Proof.
  apply (nul_leading_source_opens_empty_path
           [js_string [0; 97]%N; str "out"] [97%N] "out" 3%nat w_plain).
  - done.
  - by vm_compute.
Defined.

(** X10 in a world whose description of ENOENT is 300 bytes long. *)
Lemma errno_message_keeps_label_witness :
  ∃ e,
    throw_errno_error "ioctl FICLONE" ENOENT
      (mk_world (files w_plain) (frozen w_plain) false 18 stdio 16 0
                (λ _, fill 300 "d") [])
      = (Thrown e,
         mk_world (files w_plain) (frozen w_plain) false 18 stdio 16 0
                  (λ _, fill 300 "d") []) ∧
    Bytes.starts_with (err_message e) "ioctl FICLONE failed: ".
Proof.
  apply (errno_message_keeps_label "ioctl FICLONE" ENOENT).
  vm_compute. lia.
Defined.

(** X11 on an [exports] object that already holds two properties. *)
Lemma Init_exports_witness :
  Init Linux (<["version" := js_number 1]> (<["clone" := js_null]> ∅))
    !! "version" = Some (js_number 1) ∧
  Init Linux (<["version" := js_number 1]> (<["clone" := js_null]> ∅))
    !! "clone" = Some (js_function cb_linux_ficlone).
Proof.
  destruct (Init_exports Linux
              (<["version" := js_number 1]> (<["clone" := js_null]> ∅)))
    as (_ & Hother & Hclone & _).
  split; [| done]. by rewrite Hother.
Defined.

(** X12 on the linux module. *)
Lemma available_implies_clone_callable_witness :
  call_export Linux (Init Linux ∅) "isAvailable" [] w_plain
    = (Returned (js_boolean true), w_plain) ∧
  ∃ cb, Init Linux ∅ !! "clone" = Some (js_function cb).
Proof.
  assert (call_export Linux (Init Linux ∅) "isAvailable" [] w_plain
          = (Returned (js_boolean true), w_plain)) as Hrun by by vm_compute.
  split; [done |].
  exact (available_implies_clone_callable Linux ∅ [] w_plain w_plain Hrun).
Defined.

(** X14 at a clone of [out] onto itself, with and without reflink
    support: the file is gone, or it is empty. *)
Lemma clone_onto_itself_loses_the_file_witness :
  files w_plain !! "out" = Some (file 420 "old") ∧
  (files (linux_ficlone [str "out"; str "out"] w_plain).2 !! "out" = None ∨
   ∃ i, files (linux_ficlone [str "out"; str "out"] w_plain).2 !! "out"
          = Some i ∧ i_data i = ""%string) ∧
  files (linux_ficlone [str "out"; str "out"] w_reflink).2 !! "out"
    = Some (file 420 "").
Proof.
  split; [by vm_compute |]. split; [| by vm_compute].
  apply (clone_onto_itself_loses_the_file
           [str "out"; str "out"] "out" "out" w_plain
           ltac:(exists 3%nat, 3%nat; by vm_compute) 3 4 (-1)
           (sys_open "out" O_RDONLY 0 w_plain).2
           (sys_open "out" dest_flags DEFAULT_FILE_MODE
              (sys_open "out" O_RDONLY 0 w_plain).2).2
           (sys_ioctl 4 FICLONE 3
              (sys_open "out" dest_flags DEFAULT_FILE_MODE
                 (sys_open "out" O_RDONLY 0 w_plain).2).2).2
           ltac:(by vm_compute) ltac:(by vm_compute) ltac:(by vm_compute)
           eq_refl ltac:(lia) ltac:(lia)).
Defined.

(** X15 at a clone of the directory [dir] on a file system that clones
    extents. *)
Lemma linux_clone_of_directory_fails_witness :
  files w_reflink !! "dir" = Some (mk_inode Directory 493 "" None) ∧
  ∃ e w',
    linux_ficlone [str "dir"; str "zz"] w_reflink = (Thrown e, w') ∧
    is_Some (err_errno e).
Proof.
  assert (files w_reflink !! "dir" = Some (mk_inode Directory 493 "" None))
    as Hdir by by vm_compute.
  split; [done |].
  apply (linux_clone_of_directory_fails
           [str "dir"; str "zz"] "dir" "zz" w_reflink
           ltac:(exists 3%nat, 2%nat; by vm_compute) 3 4 (-1)
           (sys_open "dir" O_RDONLY 0 w_reflink).2
           (sys_open "zz" dest_flags DEFAULT_FILE_MODE
              (sys_open "dir" O_RDONLY 0 w_reflink).2).2
           (sys_ioctl 4 FICLONE 3
              (sys_open "zz" dest_flags DEFAULT_FILE_MODE
                 (sys_open "dir" O_RDONLY 0 w_reflink).2).2).2
           ltac:(by vm_compute) ltac:(by vm_compute) ltac:(by vm_compute)
           _ Hdir eq_refl).
Defined.

(** X16 at a clone of [a.txt] onto the new path [out2]. *)
Lemma repeated_darwin_clone_fails_witness :
  (darwin_clonefile [str "a.txt"; str "out2"] w_reflink).1
    = Returned js_undefined ∧
  ∃ e w2,
    darwin_clonefile [str "a.txt"; str "out2"]
      (darwin_clonefile [str "a.txt"; str "out2"] w_reflink).2
      = (Thrown e, w2) ∧
    is_Some (err_errno e) ∧
    files w2 = files (darwin_clonefile [str "a.txt"; str "out2"] w_reflink).2.
Proof.
  split; [by vm_compute |].
  apply (repeated_darwin_clone_fails
           [str "a.txt"; str "out2"] w_reflink _ js_undefined).
  by vm_compute.
Defined.

End Concrete_more.
